(** * helm-patchdiff: a shallow embedding of [main.go]

    The program previews a [helm upgrade] as a list of JSON patches.  It is
    glue code over Helm, the Kubernetes client libraries and a JSON patch
    library.  The embedding keeps the control flow of [main.go] function by
    function; every library call is a field of the record [Collaborators],
    and every call made is recorded in a log, so that statements about which
    calls happen, how often, and with which arguments can be made. *)

From Stdlib Require Import ZArith Lia Bool.
From stdpp Require Import base option list strings gmap.

Local Open Scope string_scope.

(** ** Go values *)

(** [[]byte] and [string] are both byte sequences. *)
Abbreviation bytes := string (only parsing).

(** Go's [error] values.  The constructors are the ways [main.go] builds an
    error; [External] stands for an error value made by a library. *)
Inductive error : Type :=
| Errorf (format : string) (args : list string)
| Wrapf (cause : error) (format : string) (args : list string)
| NewErrNoDeployedReleases (releaseName : string)
| External (id : string).

(** [errors.New], [errors.Wrap]: no format arguments. *)
Definition errors_New (msg : string) : error := Errorf msg [].
Definition errors_Wrap (cause : error) (msg : string) : error := Wrapf cause msg [].

(** Go's [int] on a 64-bit platform: addition wraps around. *)
Definition int_wrap (x : Z) : Z := ((x + 2 ^ 63) mod 2 ^ 64 - 2 ^ 63)%Z.
Definition int_add (a b : Z) : Z := int_wrap (a + b).

(** [release.Status] is a string type; these are the constants the code names. *)
Definition Status := string.
Definition StatusDeployed : Status := "deployed".
Definition StatusSuperseded : Status := "superseded".
Definition StatusFailed : Status := "failed".

(** [release.Release], the fields the code reads. *)
Record Release := {
  Release_Name : string;
  Info_Status : Status;
  Version : Z;
  Release_Namespace : string;
  Manifest : string
}.

(** [chartutil.ReleaseOptions] *)
Record ReleaseOptions := {
  Options_Name : string;
  Options_Namespace : string;
  Revision : Z;
  IsUpgrade : bool
}.

(** [schema.GroupVersionKind] inside [meta.RESTMapping] *)
Record GroupVersionKind := {
  Group : string;
  GVK_Version : string;
  Kind : string
}.

(** [resource.Info]; its [Client] is the connection to the runtime. *)
Record Info (Object : Type) := {
  Mapping : GroupVersionKind;
  Namespace : string;
  Name : string;
  Export : bool;
  InfoObject : Object
}.
Arguments Mapping {Object} _.
Arguments Namespace {Object} _.
Arguments Name {Object} _.
Arguments Export {Object} _.
Arguments InfoObject {Object} _.

(** [types.PatchType] *)
Inductive PatchType := StrategicMergePatchType | MergePatchType.

(** [version.Info] and [chartutil.KubeVersion] *)
Record VersionInfo := { GitVersion : string; VI_Major : string; VI_Minor : string }.
Record KubeVersion := { KV_Version : string; KV_Major : string; KV_Minor : string }.
Definition KubeVersion_String (v : KubeVersion) : string := KV_Version v.

(** [releaseutil.Manifest] *)
Record ManifestFile := { Manifest_Name : string; Content : string }.

(** ** The libraries the program calls

    Functions that reach the runtime read the [Cluster] they are given.
    Pure library functions have no [Cluster] argument. *)
Record Collaborators := {
  Cluster : Type;
  Object : Type;
  PatchMeta : Type;
  Chart : Type;
  Values : Type;
  ValueOptions : Type;
  VersionSet : Type;
  DiscoveryClient : Type;
  RESTConfig : Type;

  (* helm.sh/helm/v3/pkg/action *)
  ValidName_MatchString : string -> bool;
  Configuration_Init : option error;
  GetVersionSet : Cluster -> DiscoveryClient -> VersionSet * option error;
  (* helm.sh/helm/v3/pkg/kube *)
  KubeClient_IsReachable : Cluster -> option error;
  KubeClient_Build : Cluster -> string -> bool -> error + list (Info Object);
  ResourceList_Get : list (Info Object) -> Info Object -> option (Info Object);
  AsVersioned : Info Object -> Object;
  (* helm.sh/helm/v3/pkg/storage *)
  Releases_Last : Cluster -> string -> error + Release;
  Releases_Deployed : Cluster -> string -> error + Release;
  Is_ErrReleaseNotFound : error -> bool;
  Is_ErrNoDeployedReleases : error -> bool;
  (* helm.sh/helm/v3/pkg/cli/values, chart/loader, chartutil, engine, releaseutil *)
  MergeValues : ValueOptions -> error + Values;
  loader_Load : string -> error + Chart;
  Metadata_KubeVersion : Chart -> string;
  ProcessDependencies : Chart -> Values -> error + Chart;
  ToRenderValues :
    Chart -> Values -> ReleaseOptions -> option (VersionSet * KubeVersion) -> error + Values;
  IsCompatibleRange : string -> string -> bool;
  RenderWithClient : Cluster -> Chart -> Values -> RESTConfig -> error + gmap string string;
  SortManifests : gmap string string -> VersionSet -> error + list ManifestFile;
  (* k8s.io/cli-runtime, client-go *)
  ToDiscoveryClient : error + DiscoveryClient;
  ToRESTConfig : error + RESTConfig;
  ServerVersion : Cluster -> DiscoveryClient -> error + VersionInfo;
  IsGroupDiscoveryFailedError : error -> bool;
  helper_Get :
    Cluster -> GroupVersionKind -> string -> string -> bool -> option Object * option error;
  IsNotFound : error -> bool;
  (* k8s.io/apimachinery, apiextensions, encoding/json, json-patch *)
  isUnstructured : Object -> bool;              (* the object is a runtime.Unstructured *)
  isCustomResourceDefinition : Object -> bool;  (* it is an apiextv1.CustomResourceDefinition *)
  json_Marshal : option Object -> error + bytes;
  CreateMergePatch : bytes -> bytes -> option bytes * option error;
  NewPatchMetaFromStruct : Object -> error + PatchMeta;
  CreateThreeWayMergePatch :
    bytes -> bytes -> bytes -> PatchMeta -> bool -> option bytes * option error
}.

(** [chartutil.Capabilities] *)
Definition Capabilities (K : Collaborators) : Type := (VersionSet K * KubeVersion)%type.

(** One entry of the call log. *)
Inductive Call : Type :=
| CallMergeValues
| CallLoad (chartPath : string)
| CallInit
| CallIsReachable
| CallLast (name : string)
| CallDeployed (name : string)
| CallProcessDependencies
| CallToDiscoveryClient
| CallInvalidate
| CallServerVersion
| CallGetVersionSet
| CallLog (format : string)
| CallToRenderValues (options : ReleaseOptions)
| CallToRESTConfig
| CallRenderWithClient
| CallBuild (manifest : string)
| CallGet (mapping : GroupVersionKind) (namespace name : string) (export : bool)
(* the mutating methods of kube.Interface, resource.Helper and storage.Storage *)
| CallCreate
| CallUpdate
| CallPatch
| CallReplace
| CallDelete.

(** What a call does to the runtime.  [LocalOnly] calls stay in the process. *)
Inductive Access := LocalOnly | RuntimeRead | RuntimeWrite.

Definition access (c : Call) : Access :=
  match c with
  | CallIsReachable | CallLast _ | CallDeployed _ | CallServerVersion
  | CallGetVersionSet | CallRenderWithClient | CallBuild _ | CallGet _ _ _ _ => RuntimeRead
  | CallCreate | CallUpdate | CallPatch | CallReplace | CallDelete => RuntimeWrite
  | CallMergeValues | CallLoad _ | CallInit | CallProcessDependencies
  | CallToDiscoveryClient | CallInvalidate | CallLog _ | CallToRenderValues _
  | CallToRESTConfig => LocalOnly
  end.

(** A process either carries on with a value or ends in [log.Fatal]. *)
Inductive Exit (A : Type) : Type :=
| Returns (a : A)
| LogFatal (e : error).
Arguments Returns {A} _.
Arguments LogFatal {A} _.

Section Program.

Variable K : Collaborators.

(** The state a run threads: the runtime, [action.Configuration]'s
    [Capabilities] field, and the log of library calls made so far.  The
    runtime changes only through the program's own calls: nothing else
    touches it while the command runs. *)
Record State := {
  cluster : Cluster K;
  c_Capabilities : option (Capabilities K);
  calls : list Call
}.

Definition M (A : Type) : Type := State -> A * State.

Definition ret {A} (a : A) : M A := fun s => (a, s).
Definition bind {A B} (m : M A) (f : A -> M B) : M B :=
  fun s => let (a, s') := m s in f a s'.

Notation "x <- m ;; k" := (bind m (fun x => k))
  (at level 100, m at next level, right associativity).
Notation "m ;;; k" := (bind m (fun _ => k))
  (at level 100, right associativity).

(** Record a library call. *)
Definition call (c : Call) : M unit :=
  fun s => (tt, {| cluster := cluster s; c_Capabilities := c_Capabilities s;
                   calls := calls s ++ [c] |}).
(** Read the runtime through the client. *)
Definition runtime {A} (c : Call) (f : Cluster K -> A) : M A :=
  call c ;;; fun s => (f (cluster s), s).
Definition getCapabilitiesField : M (option (Capabilities K)) :=
  fun s => (c_Capabilities s, s).
Definition setCapabilitiesField (caps : Capabilities K) : M unit :=
  fun s => (tt, {| cluster := cluster s; c_Capabilities := Some caps;
                   calls := calls s |}).

(** [apierrors.IsNotFound(err)]; a nil error is not NotFound. *)
Definition apierrors_IsNotFound (err : option error) : bool :=
  match err with
  | Some e => IsNotFound K e
  | None => false
  end.

(** [err != nil] *)
Definition notNil (err : option error) : bool :=
  match err with
  | Some _ => true
  | None => false
  end.

(** [helper.Get(info.Namespace, info.Name, info.Export)] with the helper made
    from [info.Client] and [info.Mapping]. *)
Definition Get (info : Info (Object K)) : M (option (Object K) * option error) :=
  runtime (CallGet (Mapping info) (Namespace info) (Name info) (Export info))
          (fun cl => helper_Get K cl (Mapping info) (Namespace info) (Name info) (Export info)).

(** ** [validateReleaseName] *)
Definition validateReleaseName (releaseName : string) : option error :=
  if String.eqb releaseName "" then Some (Errorf "no release name set" [])
  else if (53 <? String.length releaseName)%nat || negb (ValidName_MatchString K releaseName)
  then Some (Errorf "invalid release name: %s" [releaseName])
  else None.

(** ** [createPatch] *)
Definition createPatch (current : Object K) (target : Info (Object K))
  : M (option bytes * PatchType * option error) :=
  match json_Marshal K (Some current) with
  | inl err =>
      ret (None, StrategicMergePatchType,
           Some (errors_Wrap err "serializing current configuration"))
  | inr oldData =>
  match json_Marshal K (Some (InfoObject target)) with
  | inl err =>
      ret (None, StrategicMergePatchType,
           Some (errors_Wrap err "serializing target configuration"))
  | inr newData =>
  (* Fetch the current object for the three way merge *)
  r <- Get target ;;
  let currentObj := fst r in
  let err := snd r in
  if notNil err && negb (apierrors_IsNotFound err) then
    ret (None, StrategicMergePatchType,
         option_map (fun e => Wrapf e "unable to get data for current object %s/%s"
                                    [Namespace target; Name target]) err)
  else
  (* Even if currentObj is nil (because it was not found), it will marshal just fine *)
  match json_Marshal K currentObj with
  | inl err =>
      ret (None, StrategicMergePatchType,
           Some (errors_Wrap err "serializing live configuration"))
  | inr currentData =>
  (* Get a versioned object *)
  let versionedObject := AsVersioned K target in
  let isUnstructured := isUnstructured K versionedObject in
  let isCRD := isCustomResourceDefinition K versionedObject in
  if isUnstructured || isCRD then
    (* fall back to generic JSON merge patch *)
    let '(patch, err) := CreateMergePatch K oldData newData in
    ret (patch, MergePatchType, err)
  else
  match NewPatchMetaFromStruct K versionedObject with
  | inl err =>
      ret (None, StrategicMergePatchType,
           Some (errors_Wrap err "unable to create patch metadata from object"))
  | inr patchMeta =>
    let '(patch, err) :=
      CreateThreeWayMergePatch K oldData newData currentData patchMeta true in
    ret (patch, StrategicMergePatchType, err)
  end
  end
  end
  end.

(** ** [getCapabilities] *)
Definition getCapabilities : M (option error) :=
  caps <- getCapabilitiesField ;;
  match caps with
  | Some _ => ret None
  | None =>
  call CallToDiscoveryClient ;;;
  match ToDiscoveryClient K with
  | inl err => ret (Some (errors_Wrap err "could not get Kubernetes discovery client"))
  | inr dc =>
  (* force a discovery cache invalidation *)
  call CallInvalidate ;;;
  kv <- runtime CallServerVersion (fun cl => ServerVersion K cl dc) ;;
  match kv with
  | inl err => ret (Some (errors_Wrap err "could not get server version from Kubernetes"))
  | inr kubeVersion =>
  r <- runtime CallGetVersionSet (fun cl => GetVersionSet K cl dc) ;;
  let apiVersions := fst r in
  let store :=
    setCapabilitiesField
      (apiVersions, {| KV_Version := GitVersion kubeVersion;
                       KV_Major := VI_Major kubeVersion;
                       KV_Minor := VI_Minor kubeVersion |}) ;;;
    ret None in
  match snd r with
  | Some err =>
      if IsGroupDiscoveryFailedError K err then
        call (CallLog "WARNING: The Kubernetes server has an orphaned API service. Server reports: %s") ;;;
        call (CallLog "WARNING: To fix this, kubectl delete apiservice <service-name>") ;;;
        store
      else ret (Some (errors_Wrap err "could not get apiVersions from Kubernetes"))
  | None => store
  end
  end
  end
  end.

(** [strings.HasSuffix] *)
Definition HasSuffix (s suffix : string) : bool :=
  let n := String.length s in
  let m := String.length suffix in
  (m <=? n)%nat && String.eqb (String.substring (n - m) m s) suffix.

Definition newline : string := String (Ascii.ascii_of_nat 10) EmptyString.

(** ** [renderResources]; the buffer is returned next to the error. *)
Definition renderResources (ch : Chart K) (values : Values K) : M (string * option error) :=
  let b := "" in
  e <- getCapabilities ;;
  match e with
  | Some err => ret (b, Some err)
  | None =>
  caps <- getCapabilitiesField ;;
  match caps with
  | None =>
      (* not reached: getCapabilities returns nil only with the field set *)
      ret (b, Some (External "nil pointer dereference"))
  | Some caps =>
  if negb (String.eqb (Metadata_KubeVersion K ch) "")
     && negb (IsCompatibleRange K (Metadata_KubeVersion K ch) (KubeVersion_String (snd caps)))
  then ret (b, Some (Errorf "chart requires kubeVersion: %s which is incompatible with Kubernetes %s"
                            [Metadata_KubeVersion K ch; KubeVersion_String (snd caps)]))
  else
  call CallToRESTConfig ;;;
  match ToRESTConfig K with
  | inl err => ret (b, Some err)
  | inr rest =>
  r <- runtime CallRenderWithClient (fun cl => RenderWithClient K cl ch values rest) ;;
  match r with
  | inl err => ret (b, Some err)
  | inr files =>
  (* NOTES.txt files are dropped *)
  let files := filter (fun kv => HasSuffix (fst kv) "NOTES.txt" = false) files in
  match SortManifests K files (fst caps) with
  | inl err => ret (b, Some err)
  | inr manifests =>
    ret (fold_left
           (fun b m => b ++ "---" ++ newline ++ "# Source: " ++ Manifest_Name m ++ newline
                         ++ Content m ++ newline)
           manifests b, None)
  end
  end
  end
  end
  end.

(** ** [prepareUpgrade] *)

(** Lines 150-165: which release the upgrade starts from. *)
Definition currentReleaseFor (name : string) (lastRelease : Release) : M (error + Release) :=
  if String.eqb (Info_Status lastRelease) StatusDeployed then
    (* no need to retrieve the last deployed release from storage *)
    ret (inr lastRelease)
  else
    (* finds the deployed release with the given name *)
    r <- runtime (CallDeployed name) (fun cl => Releases_Deployed K cl name) ;;
    match r with
    | inr currentRelease => ret (inr currentRelease)
    | inl err =>
        if Is_ErrNoDeployedReleases K err
           && (String.eqb (Info_Status lastRelease) StatusFailed
               || String.eqb (Info_Status lastRelease) StatusSuperseded)
        then ret (inr lastRelease)
        else ret (inl err)
    end.

Definition prepareUpgrade (name : string) (chart : option (Chart K)) (vals : Values K)
  : M (string * string * option error) :=
  match chart with
  | None => ret ("", "", Some (errors_New "missing chart"))
  | Some chart =>
  (* finds the last non-deleted release with the given name *)
  l <- runtime (CallLast name) (fun cl => Releases_Last K cl name) ;;
  match l with
  | inl err =>
      if Is_ErrReleaseNotFound K err then ret ("", "", Some (NewErrNoDeployedReleases name))
      else ret ("", "", Some err)
  | inr lastRelease =>
  cur <- currentReleaseFor name lastRelease ;;
  match cur with
  | inl err => ret ("", "", Some err)
  | inr currentRelease =>
  call CallProcessDependencies ;;;
  match ProcessDependencies K chart vals with
  | inl err => ret ("", "", Some err)
  | inr chart =>
  (* Increment revision count. *)
  let revision := int_add (Version lastRelease) 1 in
  let options := {| Options_Name := name;
                    Options_Namespace := Release_Namespace currentRelease;
                    Revision := revision;
                    IsUpgrade := true |} in
  e <- getCapabilities ;;
  match e with
  | Some err => ret ("", "", Some err)
  | None =>
  caps <- getCapabilitiesField ;;
  call (CallToRenderValues options) ;;;
  match ToRenderValues K chart vals options caps with
  | inl err => ret ("", "", Some err)
  | inr valuesToRender =>
  m <- renderResources chart valuesToRender ;;
  match snd m with
  | Some err => ret ("", "", Some err)
  | None => ret (Manifest currentRelease, fst m, None)
  end
  end
  end
  end
  end
  end
  end.

(** ** [createPatchset] *)

(** [string(patch)] *)
Definition string_of_bytes (patch : option bytes) : string :=
  match patch with
  | Some b => b
  | None => ""
  end.

(** The function literal given to [target.Visit]; [patches] is the slice it
    closes over. *)
Definition visitFn (original : list (Info (Object K))) (info : Info (Object K))
    (err : option error) (patches : list string) : M (list string * option error) :=
  match err with
  | Some err => ret (patches, Some err)
  | None =>
  r <- Get info ;;
  if apierrors_IsNotFound (snd r) then
    (* no patch to generate *)
    ret (patches, None)
  else
  match ResourceList_Get K original info with
  | None => ret (patches, Some (Errorf "could not find %q" [Name info]))
  | Some originalInfo =>
  p <- createPatch (InfoObject originalInfo) info ;;
  let '(patch, _, err) := p in
  match err with
  | Some err => ret (patches, Some err)
  | None =>
    (* append patch to patchset *)
    ret (app patches [string_of_bytes patch], None)
  end
  end
  end.

(** [kube.ResourceList.Visit]: the function is applied to each element in
    order, with a nil error, until it returns an error. *)
Fixpoint Visit (r : list (Info (Object K)))
    (fn : Info (Object K) -> option error -> list string -> M (list string * option error))
    (patches : list string) : M (list string * option error) :=
  match r with
  | [] => ret (patches, None)
  | i :: r' =>
      x <- fn i None patches ;;
      match snd x with
      | Some err => ret (fst x, Some err)
      | None => Visit r' fn (fst x)
      end
  end.

(** [fmt.Sprintf("[%s]", strings.Join(patches, ","))] *)
Definition formatPatchset (patches : list string) : string :=
  "[" ++ String.concat "," patches ++ "]".

(** [createPatchset]: the string returned and the error next to it. *)
Definition createPatchset (name : string) (ch : option (Chart K)) (vals : Values K)
  : M (Exit (string * option error)) :=
  let patches : list string := [] in
  call CallInit ;;;
  match Configuration_Init K with
  | Some err => ret (LogFatal err)
  | None =>
  e <- runtime CallIsReachable (KubeClient_IsReachable K) ;;
  match e with
  | Some err => ret (Returns ("", Some err))
  | None =>
  p <- prepareUpgrade name ch vals ;;
  let '(originalManifest, targetManifest, err) := p in
  match err with
  | Some err => ret (Returns ("", Some err))
  | None =>
  o <- runtime (CallBuild originalManifest)
               (fun cl => KubeClient_Build K cl originalManifest false) ;;
  match o with
  | inl err =>
      ret (Returns ("", Some (errors_Wrap err
             "unable to build kubernetes objects from original release manifest")))
  | inr original =>
  t <- runtime (CallBuild targetManifest)
               (fun cl => KubeClient_Build K cl targetManifest false) ;;
  match t with
  | inl err =>
      ret (Returns ("", Some (errors_Wrap err
             "unable to build kubernetes objects from new release manifest")))
  | inr target =>
    v <- Visit target (visitFn original) patches ;;
    ret (Returns (formatPatchset (fst v), snd v))
  end
  end
  end
  end
  end.

(** ** The command's [RunE] *)
Inductive Output :=
| Printed (line : string)   (* fmt.Println(patchset); return nil *)
| Exited (e : error).       (* log.Fatal(err) *)

Definition RunE (valueOpts : ValueOptions K) (name chartPath : string) : M Output :=
  match validateReleaseName name with
  | Some err => ret (Exited err)
  | None =>
  call CallMergeValues ;;;
  match MergeValues K valueOpts with
  | inl err => ret (Exited err)
  | inr vals =>
  call (CallLoad chartPath) ;;;
  match loader_Load K chartPath with
  | inl err => ret (Exited err)
  | inr ch =>
  x <- createPatchset name (Some ch) vals ;;
  match x with
  | LogFatal err => ret (Exited err)
  | Returns (_, Some err) => ret (Exited err)
  | Returns (patchset, None) => ret (Printed patchset)
  end
  end
  end
  end.

(** A run starts with no capabilities negotiated and an empty call log. *)
Definition initial (cl : Cluster K) : State :=
  {| cluster := cl; c_Capabilities := None; calls := [] |}.

(** ** Reading results off a run *)

(** The live lookup of a target resource, as a function of the runtime. *)
Definition lookupLive (cl : Cluster K) (info : Info (Object K))
  : option (Object K) * option error :=
  helper_Get K cl (Mapping info) (Namespace info) (Name info) (Export info).

(** The lookup did not answer NotFound. *)
Definition existsLive (cl : Cluster K) (info : Info (Object K)) : bool :=
  negb (apierrors_IsNotFound (snd (lookupLive cl info))).

(** The resource is classified as schemaless by [createPatch]. *)
Definition schemaless (target : Info (Object K)) : bool :=
  isUnstructured K (AsVersioned K target) || isCustomResourceDefinition K (AsVersioned K target).

(** The release [prepareUpgrade] starts from, as a function of the runtime. *)
Definition baseline (cl : Cluster K) (name : string) (lastRelease : Release) : error + Release :=
  fst (currentReleaseFor name lastRelease (initial cl)).

(** The entry [visitFn] appends for a target resource. *)
Definition patchFor (cl : Cluster K) (original : list (Info (Object K)))
    (info : Info (Object K)) : string :=
  match ResourceList_Get K original info with
  | Some originalInfo =>
      string_of_bytes (fst (fst (fst (createPatch (InfoObject originalInfo) info (initial cl)))))
  | None => ""
  end.

(** [json.Marshal] of the object succeeds. *)
Definition marshals (o : Object K) : bool :=
  match json_Marshal K (Some o) with
  | inr _ => true
  | inl _ => false
  end.

(** The lookup inside [createPatch] gives something it can go on with: no
    error other than NotFound, and an object (or nil) that serializes. *)
Definition liveReadable (cl : Cluster K) (target : Info (Object K)) : bool :=
  negb (notNil (snd (lookupLive cl target))
        && negb (apierrors_IsNotFound (snd (lookupLive cl target))))
  && match json_Marshal K (fst (lookupLive cl target)) with
     | inr _ => true
     | inl _ => false
     end.

(** The visit of [info] gets as far as the lookup inside [createPatch]: the
    first lookup is not NotFound, an original matches, and both declared
    bodies serialize. *)
Definition reachesMerge (cl : Cluster K) (original : list (Info (Object K)))
    (info : Info (Object K)) : bool :=
  existsLive cl info
  && match ResourceList_Get K original info with
     | Some originalInfo => marshals (InfoObject originalInfo) && marshals (InfoObject info)
     | None => false
     end.

(** The visit of a live [info] appends a patch: an original matches and
    [createPatch] returns no error. *)
Definition patchable (cl : Cluster K) (original : list (Info (Object K)))
    (info : Info (Object K)) : bool :=
  match ResourceList_Get K original info with
  | Some originalInfo =>
      negb (notNil (snd (fst (createPatch (InfoObject originalInfo) info (initial cl)))))
  | None => false
  end.

(** The state after one more library call has been logged. *)
Definition logged (c : Call) (s : State) : State :=
  {| cluster := cluster s; c_Capabilities := c_Capabilities s; calls := calls s ++ [c] |}.

(** The state in which [createPatchset] calls [prepareUpgrade]: after [Init]
    and the reachability check. *)
Definition checked (s : State) : State := logged CallIsReachable (logged CallInit s).

(** The state in which [RunE] calls [createPatchset]: after the values are
    merged and the chart is loaded. *)
Definition loaded (chartPath : string) (s : State) : State :=
  logged (CallLoad chartPath) (logged CallMergeValues s).


(** The runtime after the calls of a log, when [effect c] is what the call
    [c] does to it. *)
Definition replay (effect : Call -> Cluster K -> Cluster K) (l : list Call)
    (cl : Cluster K) : Cluster K :=
  fold_left (fun cl c => effect c cl) l cl.

(** Is this log entry a live lookup of [info]? *)
Definition isGetOf (info : Info (Object K)) (c : Call) : bool :=
  match c with
  | CallGet m ns n e =>
      String.eqb (Group m) (Group (Mapping info))
      && String.eqb (GVK_Version m) (GVK_Version (Mapping info))
      && String.eqb (Kind m) (Kind (Mapping info))
      && String.eqb ns (Namespace info) && String.eqb n (Name info)
      && Bool.eqb e (Export info)
  | _ => false
  end.

(** The log entries a computation adds when run from [s]. *)
Definition added {A} (m : M A) (s : State) : list Call :=
  drop (length (calls s)) (calls (snd (m s))).

Definition renderCalls (l : list Call) : list ReleaseOptions :=
  omap (fun c => match c with CallToRenderValues o => Some o | _ => None end) l.

End Program.

Arguments ret {K A} _ _.
Arguments bind {K A B} _ _ _.
Arguments added {K A} _ _.
Arguments cluster {K} _.
Arguments c_Capabilities {K} _.
Arguments calls {K} _.
Arguments replay {K} _ _ _.

(** [Logs P m]: running [m] leaves the runtime as it was and only appends
    log entries, each satisfying [P]. *)
Definition Logs {K : Collaborators} (P : Call -> Prop) {A} (m : M K A) : Prop :=
  forall s, cluster (snd (m s)) = cluster s
            /\ exists l, calls (snd (m s)) = (calls s ++ l)%list /\ Forall P l.

(** A call that does not write to the runtime. *)
Definition noWrite (c : Call) : Prop := access c <> RuntimeWrite.

(** A call other than the rendering of values. *)
Definition notRender (c : Call) : Prop := renderCalls [c] = [].

Definition quiet (c : Call) : Prop := noWrite c /\ notRender c.

(** The calls [getCapabilities] makes to negotiate capabilities. *)
Definition isDiscovery (c : Call) : bool :=
  match c with
  | CallToDiscoveryClient | CallInvalidate | CallServerVersion | CallGetVersionSet => true
  | _ => false
  end.

Definition discoverySequence : list Call :=
  [CallToDiscoveryClient; CallInvalidate; CallServerVersion; CallGetVersionSet].

(** The log entry of the live lookup of [info]. *)
Definition getCall {Object : Type} (info : Info Object) : Call :=
  CallGet (Mapping info) (Namespace info) (Name info) (Export info).

(** Lines 264-268 of [renderResources]: every file whose name ends in
    [NOTES.txt] is deleted from the map of rendered files. *)
Definition stripNotes (files : gmap string string) : gmap string string :=
  filter (fun kv => HasSuffix (fst kv) "NOTES.txt" = false) files.

(** Lines 274-276 of [renderResources]: what is written for one manifest,
    and the buffer after all of them. *)
Definition manifestEntry (m : ManifestFile) : string :=
  "---" ++ newline ++ "# Source: " ++ Manifest_Name m ++ newline ++ Content m ++ newline.

Definition formatManifests (manifests : list ManifestFile) : string :=
  fold_left (fun b m => b ++ "---" ++ newline ++ "# Source: " ++ Manifest_Name m ++ newline
                          ++ Content m ++ newline) manifests "".

(** ** The three-way merge of the Kubernetes library *)
Section ThreeWayMerge.

(** A document is read as the finite map from the paths of its fields to
    their values. *)
Variable unmarshal : bytes -> option (gmap string string).
(** A patch maps a field path to its new value, or to null. *)
Variable marshalPatch : gmap string (option string) -> bytes.

(** [strategicpatch.CreateThreeWayMergePatch] of k8s.io/apimachinery (the
    version of go.mod), which [createPatch] calls at line 327 with overwrite
    set; its code is not in the repository.  As the library documents it, the
    patch is the difference from current to modified without deletions, plus
    the deletions from original to modified. *)

(** The difference from current to modified, deletions ignored: every field
    of the modified document that the current one lacks or holds with another
    value. *)
Definition additions (current modified : gmap string string) : gmap string (option string) :=
  Some <$> filter (fun kv => current !! (fst kv) <> Some (snd kv)) modified.

(** The deletions from original to modified: every field of the original
    document that the modified one no longer has, set to null. *)
Definition deletions (original modified : gmap string string) : gmap string (option string) :=
  (fun _ => None) <$> filter (fun kv => modified !! (fst kv) = None) original.

(** The additions applied on top of the deletions. *)
Definition threeWayPatchFields (original modified current : gmap string string)
  : gmap string (option string) :=
  additions current modified ∪ deletions original modified.

(** The entry point on serialized documents; a document that cannot be read
    is an error.  With overwrite set no conflict is looked for. *)
Definition threeWayMergePatch (original modified current : bytes)
  : option bytes * option error :=
  match unmarshal original, unmarshal modified, unmarshal current with
  | Some o, Some m, Some c => (Some (marshalPatch (threeWayPatchFields o m c)), None)
  | _, _, _ => (None, Some (External "invalid JSON document"))
  end.

End ThreeWayMerge.

(** ** A small concrete runtime, used to run the program on examples *)
Module Sample.

(** [CustomResourceDefinition] is the type of apiextensions/v1, the one line
    314 asserts; [CustomResourceDefinitionV1beta1] is the typed object of the
    older API version. *)
Inductive GoType :=
| Typed | Unstructured | CustomResourceDefinition | CustomResourceDefinitionV1beta1.

(** An object: the Go type of its versioned form and its JSON text. *)
Record SampleObject := { goType : GoType; body : string }.

Record SampleCluster := {
  live : list (string * SampleObject);
  last : error + Release;
  deployed : error + Release;
  originalInfos : list (Info SampleObject);
  targetInfos : list (Info SampleObject)
}.

Definition notFound : error := External "NotFound".

(** The whole document is one field, at the root path. *)
Definition unmarshal (b : bytes) : option (gmap string string) := Some {[ "" := b ]}.
Definition marshalPatch (p : gmap string (option string)) : bytes :=
  match p !! "" with
  | None => "{}"
  | Some (Some v) => v
  | Some None => "null"
  end.

Definition lowerOrDigit (a : Ascii.ascii) : bool :=
  let n := Ascii.nat_of_ascii a in
  ((97 <=? n) && (n <=? 122) || (48 <=? n) && (n <=? 57))%nat.

Fixpoint lookupName {A} (n : string) (l : list (string * A)) : option A :=
  match l with
  | [] => None
  | (k, v) :: l' => if String.eqb k n then Some v else lookupName n l'
  end.

(** The library functions are stand-ins, just enough to run the program:
    names are lower-case letters and digits, every manifest builds, a merge
    patch of two different documents is the new document. *)
Definition K : Collaborators := {|
  Cluster := SampleCluster;
  Object := SampleObject;
  PatchMeta := unit;
  Chart := unit;
  Values := unit;
  ValueOptions := unit;
  VersionSet := unit;
  DiscoveryClient := unit;
  RESTConfig := unit;
  ValidName_MatchString := fun s =>
    negb (String.eqb s "") && forallb lowerOrDigit (String.list_ascii_of_string s);
  Configuration_Init := None;
  GetVersionSet := fun _ _ => (tt, None);
  KubeClient_IsReachable := fun _ => None;
  KubeClient_Build := fun cl m _ =>
    inr (if String.eqb m "original" then originalInfos cl else targetInfos cl);
  ResourceList_Get := fun l i =>
    find (fun j => String.eqb (Name j) (Name i) && String.eqb (Namespace j) (Namespace i)
                   && String.eqb (Kind (Mapping j)) (Kind (Mapping i))) l;
  AsVersioned := fun i => InfoObject i;
  Releases_Last := fun cl _ => last cl;
  Releases_Deployed := fun cl _ => deployed cl;
  Is_ErrReleaseNotFound := fun e =>
    match e with External "release: not found" => true | _ => false end;
  Is_ErrNoDeployedReleases := fun e =>
    match e with NewErrNoDeployedReleases _ => true | _ => false end;
  MergeValues := fun _ => inr tt;
  loader_Load := fun _ => inr tt;
  Metadata_KubeVersion := fun _ => "";
  ProcessDependencies := fun c _ => inr c;
  ToRenderValues := fun _ v _ _ => inr v;
  IsCompatibleRange := fun _ _ => true;
  RenderWithClient := fun _ _ _ _ =>
    inr {[ "foo/templates/deployment.yaml" := "kind: Deployment";
           "foo/templates/NOTES.txt" := "enjoy" ]};
  SortManifests := fun files _ =>
    inr (map (fun kv => {| Manifest_Name := fst kv; Content := snd kv |}) (map_to_list files));
  ToDiscoveryClient := inr tt;
  ToRESTConfig := inr tt;
  ServerVersion := fun _ _ => inr {| GitVersion := "v1.18.8"; VI_Major := "1"; VI_Minor := "18" |};
  IsGroupDiscoveryFailedError := fun _ => false;
  helper_Get := fun cl _ _ n _ =>
    match lookupName n (live cl) with
    | Some o => (Some o, None)
    | None => (None, Some notFound)
    end;
  IsNotFound := fun e => match e with External "NotFound" => true | _ => false end;
  isUnstructured := fun o => match goType o with Unstructured => true | _ => false end;
  isCustomResourceDefinition := fun o =>
    match goType o with CustomResourceDefinition => true | _ => false end;
  json_Marshal := fun o => inr (match o with Some x => body x | None => "null" end);
  CreateMergePatch := fun old new =>
    (Some (if String.eqb old new then "{}" else new), None);
  NewPatchMetaFromStruct := fun _ => inr tt;
  CreateThreeWayMergePatch := fun old new current _ _ =>
    threeWayMergePatch unmarshal marshalPatch old new current
|}.

Definition deployment (ty : GoType) (name text : string) : Info SampleObject :=
  {| Mapping := {| Group := "apps"; GVK_Version := "v1"; Kind := "Deployment" |};
     Namespace := "default"; Name := name; Export := false;
     InfoObject := {| goType := ty; body := text |} |}.

Definition release (status : Status) (version : Z) (ns : string) : Release :=
  {| Release_Name := "foo"; Info_Status := status; Version := version;
     Release_Namespace := ns; Manifest := "original" |}.

(** Release foo, revision 1, deployed; one deployment, live with one replica. *)
Definition steady : SampleCluster := {|
  live := [("web", {| goType := Typed; body := "replicas: 1" |})];
  last := inr (release StatusDeployed 1 "default");
  deployed := inr (release StatusDeployed 1 "default");
  originalInfos := [deployment Typed "web" "replicas: 1"];
  targetInfos := [deployment Typed "web" "replicas: 1"]
|}.

(** The new chart adds a resource that is live already but was never part of
    the release. *)
Definition adopted : SampleCluster := {|
  live := [("web", {| goType := Typed; body := "replicas: 1" |});
           ("cache", {| goType := Typed; body := "replicas: 2" |})];
  last := inr (release StatusDeployed 1 "default");
  deployed := inr (release StatusDeployed 1 "default");
  originalInfos := [deployment Typed "web" "replicas: 1"];
  targetInfos := [deployment Typed "web" "replicas: 1"; deployment Typed "cache" "replicas: 2"]
|}.

(** Revision 5 failed; the deployed release is revision 3, in another namespace. *)
Definition failedUpgrade : SampleCluster := {|
  live := [("web", {| goType := Typed; body := "replicas: 1" |})];
  last := inr (release StatusFailed 5 "default");
  deployed := inr (release StatusDeployed 3 "prod");
  originalInfos := [deployment Typed "web" "replicas: 1"];
  targetInfos := [deployment Typed "web" "replicas: 3"; deployment Typed "job" "x"]
|}.




(** What a client call does to the sample runtime: the mutating methods
    empty it, every other call leaves it as it is. *)
Definition effect (c : Call) (cl : SampleCluster) : SampleCluster :=
  match access c with
  | RuntimeWrite =>
      {| live := []; last := last cl; deployed := deployed cl;
         originalInfos := originalInfos cl; targetInfos := targetInfos cl |}
  | _ => cl
  end.

(** A custom resource, live with the given text. *)
Definition custom (liveText : string) : SampleCluster := {|
  live := [("tab", {| goType := Unstructured; body := liveText |})];
  last := inr (release StatusDeployed 1 "default");
  deployed := inr (release StatusDeployed 1 "default");
  originalInfos := [deployment Unstructured "tab" "cron: 1"];
  targetInfos := [deployment Unstructured "tab" "cron: 2"]
|}.

End Sample.

(** ** The sample runtime with failing libraries *)
Module Faulty.

(** Which library calls fail, and how the chart constrains the platform. *)
Record Faults := {
  reachable : option error;
  mergeValues : option error;
  load : option error;
  versionSet : option error;
  groupDiscoveryFailed : bool;
  chartKubeVersion : string;
  compatible : bool;
  denied : list string   (* names whose lookup is refused *)
}.

Definition none : Faults := {|
  reachable := None; mergeValues := None; load := None; versionSet := None;
  groupDiscoveryFailed := false; chartKubeVersion := ""; compatible := true; denied := []
|}.

Definition forbidden : error := External "Forbidden".

(** [Sample.K] with the faults switched in. *)
Definition K (f : Faults) : Collaborators := {|
  Cluster := Sample.SampleCluster;
  Object := Sample.SampleObject;
  PatchMeta := unit;
  Chart := unit;
  Values := unit;
  ValueOptions := unit;
  VersionSet := unit;
  DiscoveryClient := unit;
  RESTConfig := unit;
  ValidName_MatchString := ValidName_MatchString Sample.K;
  Configuration_Init := None;
  GetVersionSet := fun _ _ => (tt, versionSet f);
  KubeClient_IsReachable := fun _ => reachable f;
  KubeClient_Build := KubeClient_Build Sample.K;
  ResourceList_Get := ResourceList_Get Sample.K;
  AsVersioned := AsVersioned Sample.K;
  Releases_Last := Releases_Last Sample.K;
  Releases_Deployed := Releases_Deployed Sample.K;
  Is_ErrReleaseNotFound := Is_ErrReleaseNotFound Sample.K;
  Is_ErrNoDeployedReleases := Is_ErrNoDeployedReleases Sample.K;
  MergeValues := fun _ => match mergeValues f with Some e => inl e | None => inr tt end;
  loader_Load := fun _ => match load f with Some e => inl e | None => inr tt end;
  Metadata_KubeVersion := fun _ => chartKubeVersion f;
  ProcessDependencies := ProcessDependencies Sample.K;
  ToRenderValues := ToRenderValues Sample.K;
  IsCompatibleRange := fun _ _ => compatible f;
  RenderWithClient := RenderWithClient Sample.K;
  SortManifests := SortManifests Sample.K;
  ToDiscoveryClient := ToDiscoveryClient Sample.K;
  ToRESTConfig := ToRESTConfig Sample.K;
  ServerVersion := ServerVersion Sample.K;
  IsGroupDiscoveryFailedError := fun _ => groupDiscoveryFailed f;
  helper_Get := fun cl m ns n e =>
    if existsb (String.eqb n) (denied f) then (None, Some forbidden)
    else helper_Get Sample.K cl m ns n e;
  IsNotFound := IsNotFound Sample.K;
  isUnstructured := isUnstructured Sample.K;
  isCustomResourceDefinition := isCustomResourceDefinition Sample.K;
  json_Marshal := json_Marshal Sample.K;
  CreateMergePatch := CreateMergePatch Sample.K;
  NewPatchMetaFromStruct := NewPatchMetaFromStruct Sample.K;
  CreateThreeWayMergePatch := CreateThreeWayMergePatch Sample.K
|}.

(** No release named foo has ever been stored. *)
Definition noRelease : Sample.SampleCluster := {|
  Sample.live := [];
  Sample.last := inl (External "release: not found");
  Sample.deployed := inl (NewErrNoDeployedReleases "foo");
  Sample.originalInfos := [];
  Sample.targetInfos := []
|}.

(** The server lists an API service nobody implements. *)
Definition orphaned : Faults := {|
  reachable := None; mergeValues := None; load := None;
  versionSet := Some (External "group discovery failed");
  groupDiscoveryFailed := true; chartKubeVersion := ""; compatible := true; denied := []
|}.

Definition unreachable : Faults := {|
  reachable := Some (External "connection refused"); mergeValues := None; load := None;
  versionSet := None; groupDiscoveryFailed := false; chartKubeVersion := "";
  compatible := true; denied := []
|}.

Definition badValues : Faults := {|
  reachable := None; mergeValues := Some (External "values.yaml: no such file"); load := None;
  versionSet := None; groupDiscoveryFailed := false; chartKubeVersion := "";
  compatible := true; denied := []
|}.

Definition badChart : Faults := {|
  reachable := None; mergeValues := None; load := Some (External "Chart.yaml file is missing");
  versionSet := None; groupDiscoveryFailed := false; chartKubeVersion := "";
  compatible := true; denied := []
|}.

(** The chart asks for a platform newer than the server. *)
Definition tooNew : Faults := {|
  reachable := None; mergeValues := None; load := None; versionSet := None;
  groupDiscoveryFailed := false; chartKubeVersion := ">= 1.99.0"; compatible := false;
  denied := []
|}.

(** Reading the deployment [web] is refused. *)
Definition refused : Faults := {|
  reachable := None; mergeValues := None; load := None; versionSet := None;
  groupDiscoveryFailed := false; chartKubeVersion := ""; compatible := true;
  denied := ["web"]
|}.

End Faulty.

(** * Properties *)

(** ** How computations use the state *)
Section Logging.

Context {K : Collaborators}.
Variable P : Call -> Prop.

Lemma Logs_ret {A} (a : A) : Logs P (ret (K:=K) a).
Proof. intros s; split; [reflexivity|]. exists []. by rewrite app_nil_r. Qed.

Lemma Logs_bind {A B} (m : M K A) (f : A -> M K B) :
  Logs P m -> (forall a, Logs P (f a)) -> Logs P (bind m f).
Proof.
  intros Hm Hf s. unfold bind. destruct (m s) as [a s1] eqn:E.
  destruct (Hm s) as [Hc [l [Hl HP]]]. rewrite E in Hc, Hl. simpl in Hc, Hl.
  destruct (Hf a s1) as [Hc' [l' [Hl' HP']]]. split; [congruence|].
  exists (l ++ l')%list. rewrite Hl', Hl, app_assoc. split; [reflexivity|].
  by apply Forall_app.
Qed.

Lemma Logs_call (c : Call) : P c -> Logs P (call K c).
Proof. intros Hc s; split; [reflexivity|]. exists [c]. split; [reflexivity|]. by constructor. Qed.

Lemma Logs_runtime {A} (c : Call) (f : Cluster K -> A) : P c -> Logs P (runtime K c f).
Proof.
  intros Hc. unfold runtime. apply Logs_bind; [by apply Logs_call|].
  intros _ s; split; [reflexivity|]. exists []. by rewrite app_nil_r.
Qed.

Lemma Logs_getCapabilitiesField : Logs P (getCapabilitiesField K).
Proof. intros s; split; [reflexivity|]. exists []. by rewrite app_nil_r. Qed.

Lemma Logs_setCapabilitiesField caps : Logs P (setCapabilitiesField K caps).
Proof. intros s; split; [reflexivity|]. exists []. by rewrite app_nil_r. Qed.

Lemma Logs_added {A} (m : M K A) s : Logs P m -> Forall P (added m s).
Proof.
  intros H. destruct (H s) as [_ [l [Hl HP]]]. unfold added.
  by rewrite Hl, drop_app_length.
Qed.

Lemma Logs_cluster {A} (m : M K A) s : Logs P m -> cluster (snd (m s)) = cluster s.
Proof. intros H. apply H. Qed.

Lemma Logs_weaken (Q : Call -> Prop) {A} (m : M K A) :
  (forall c, P c -> Q c) -> Logs P m -> Logs Q m.
Proof.
  intros HPQ H s. destruct (H s) as [Hc [l [Hl HP]]]. split; [done|].
  exists l. split; [done|]. eapply Forall_impl; eauto.
Qed.

Lemma added_bind (Q : Call -> Prop) {A B} (m : M K A) (f : A -> M K B) s :
  Logs P m -> Logs Q (f (fst (m s))) ->
  added (bind m f) s = (added m s ++ added (f (fst (m s))) (snd (m s)))%list.
Proof.
  intros Hm Hf. unfold added, bind.
  destruct (Hm s) as [_ [l [Hl _]]]. destruct (m s) as [a s1]. simpl in *.
  destruct (Hf s1) as [_ [l' [Hl' _]]]. rewrite Hl', Hl.
  rewrite (drop_app_length (calls s ++ l)), <- app_assoc.
  by rewrite !drop_app_length.
Qed.

End Logging.

Lemma Logs_noWrite {K : Collaborators} {A} (m : M K A) : Logs quiet m -> Logs noWrite m.
Proof. apply Logs_weaken. by intros c [H _]. Qed.

Lemma Logs_notRender {K : Collaborators} {A} (m : M K A) : Logs quiet m -> Logs notRender m.
Proof. apply Logs_weaken. by intros c [_ H]. Qed.

Create HintDb logs.
#[export] Hint Resolve Logs_noWrite Logs_notRender : logs.

(** Break a computation into its steps; [side] proves [P] of each call. *)
Ltac logs side :=
  repeat first
    [ apply Logs_ret
    | apply Logs_getCapabilitiesField
    | apply Logs_setCapabilitiesField
    | apply Logs_call; side
    | apply Logs_runtime; side
    | solve [eauto with logs]
    | apply Logs_bind; [|intros]
    | match goal with
      | |- Logs _ (match ?x with _ => _ end) => destruct x
      | |- Logs _ (let (_, _) := ?x in _) => destruct x
      end ].

Ltac quiet_call := split; [unfold noWrite; simpl; discriminate | reflexivity].
Ltac read_call := unfold noWrite; simpl; discriminate.

Section Effects.

Context {K : Collaborators}.

Lemma Get_quiet info : Logs quiet (Get K info).
Proof. unfold Get. logs quiet_call. Qed.
Hint Resolve Get_quiet : logs.

Lemma createPatch_quiet current target : Logs quiet (createPatch K current target).
Proof. unfold createPatch. logs quiet_call. Qed.
Hint Resolve createPatch_quiet : logs.

Lemma getCapabilities_quiet : Logs quiet (getCapabilities K).
Proof. unfold getCapabilities. logs quiet_call. Qed.
Hint Resolve getCapabilities_quiet : logs.

Lemma renderResources_quiet ch values : Logs quiet (renderResources K ch values).
Proof. unfold renderResources. logs quiet_call. Qed.
Hint Resolve renderResources_quiet : logs.

Lemma currentReleaseFor_quiet name lastRelease :
  Logs quiet (currentReleaseFor K name lastRelease).
Proof. unfold currentReleaseFor. logs quiet_call. Qed.
Hint Resolve currentReleaseFor_quiet : logs.

Lemma prepareUpgrade_noWrite name chart vals : Logs noWrite (prepareUpgrade K name chart vals).
Proof. unfold prepareUpgrade. logs read_call. Qed.
Hint Resolve prepareUpgrade_noWrite : logs.

Lemma visitFn_quiet original info err patches :
  Logs quiet (visitFn K original info err patches).
Proof. unfold visitFn. logs quiet_call. Qed.
Hint Resolve visitFn_quiet : logs.

Lemma Visit_quiet original target patches :
  Logs quiet (Visit K target (visitFn K original) patches).
Proof.
  revert patches. induction target as [|i r IH]; intros patches; simpl.
  - apply Logs_ret.
  - logs quiet_call.
Qed.
Hint Resolve Visit_quiet : logs.

Lemma createPatchset_noWrite name ch vals : Logs noWrite (createPatchset K name ch vals).
Proof. unfold createPatchset. logs read_call. Qed.
Hint Resolve createPatchset_noWrite : logs.

Lemma RunE_noWrite valueOpts name chartPath : Logs noWrite (RunE K valueOpts name chartPath).
Proof. unfold RunE. logs read_call. Qed.

End Effects.

#[export] Hint Resolve Get_quiet createPatch_quiet getCapabilities_quiet renderResources_quiet
  currentReleaseFor_quiet prepareUpgrade_noWrite visitFn_quiet Visit_quiet
  createPatchset_noWrite RunE_noWrite : logs.

Section Upgrade.
Context {K : Collaborators}.

Lemma currentReleaseFor_fst name lastRelease (s : State K) :
  fst (currentReleaseFor K name lastRelease s) = baseline K (cluster s) name lastRelease.
Proof.
  unfold baseline, currentReleaseFor, runtime, call, bind, ret. simpl.
  destruct (String.eqb _ StatusDeployed); [reflexivity|]. simpl.
  destruct (Releases_Deployed K (cluster s) name) as [err|cur]; [|reflexivity].
  by destruct (Is_ErrNoDeployedReleases K err && _).
Qed.

Lemma added_ret {A} (a : A) (s : State K) : added (ret a) s = [].
Proof. unfold added, ret. simpl. by rewrite drop_all. Qed.

Lemma added_call c (s : State K) : added (call K c) s = [c].
Proof. unfold added, call. simpl. by rewrite drop_app_length. Qed.

Lemma added_runtime {A} c (f : Cluster K -> A) (s : State K) : added (runtime K c f) s = [c].
Proof. unfold added, runtime, call, bind. simpl. by rewrite drop_app_length. Qed.

Lemma renderCalls_quiet {A} (m : M K A) s : Logs quiet m -> renderCalls (added m s) = [].
Proof.
  intros H. apply Logs_notRender in H. apply (Logs_added _ _ s) in H.
  induction H as [|c l Hc _ IH]; [reflexivity|].
  unfold notRender, renderCalls in *. simpl in *. destruct c; try done.
Qed.

Lemma bind_run {A B} (m : M K A) (f : A -> M K B) s :
  bind m f s = f (fst (m s)) (snd (m s)).
Proof. unfold bind. by destruct (m s). Qed.

Lemma renderCalls_bind {A B} (m : M K A) (f : A -> M K B) s :
  Logs noWrite m -> (forall a, Logs noWrite (f a)) ->
  renderCalls (added (bind m f) s)
  = (renderCalls (added m s) ++ renderCalls (added (f (fst (m s))) (snd (m s))))%list.
Proof.
  intros Hm Hf. rewrite (added_bind noWrite noWrite); [|done|done].
  unfold renderCalls. by rewrite omap_app.
Qed.

Ltac bind_step H :=
  rewrite bind_run in H;
  rewrite renderCalls_bind; [|logs read_call|intros; logs read_call].

Lemma prepareUpgrade_success name chart vals (s : State K) orig tgt :
  fst (prepareUpgrade K name chart vals s) = (orig, tgt, None) ->
  exists last cur,
    Releases_Last K (cluster s) name = inr last
    /\ baseline K (cluster s) name last = inr cur
    /\ orig = Manifest cur
    /\ renderCalls (added (prepareUpgrade K name chart vals) s) =
         [{| Options_Name := name; Options_Namespace := Release_Namespace cur;
             Revision := int_add (Version last) 1; IsUpgrade := true |}].
Proof.
  unfold prepareUpgrade. destruct chart as [chart|]; [|discriminate].
  intros H. bind_step H.
  rewrite added_runtime. 
  set (s1 := snd (runtime K (CallLast name) _ s)) in *.
  assert (Hs1 : cluster s1 = cluster s) by reflexivity.
  change (fst (runtime K (CallLast name) (fun cl => Releases_Last K cl name) s))
    with (Releases_Last K (cluster s) name) in *.
  destruct (Releases_Last K (cluster s) name) as [err|last]; [by destruct (Is_ErrReleaseNotFound K err)|].
  exists last. bind_step H.
  rewrite (renderCalls_quiet (currentReleaseFor K name last)); [|eauto with logs].
  rewrite currentReleaseFor_fst, Hs1 in *.
  destruct (baseline K (cluster s) name last) as [err|cur]; [discriminate|].
  exists cur. bind_step H. rewrite added_call.
  destruct (ProcessDependencies K chart vals) as [err|chart']; [discriminate|].
  bind_step H. rewrite (renderCalls_quiet (getCapabilities K)); [|eauto with logs].
  destruct (fst (getCapabilities K _)); [discriminate|].
  bind_step H. rewrite (renderCalls_quiet (getCapabilitiesField K)); [|apply Logs_getCapabilitiesField].
  bind_step H. rewrite added_call.
  destruct (ToRenderValues K chart' vals _ _) as [err|valuesToRender]; [discriminate|].
  bind_step H. rewrite (renderCalls_quiet (renderResources K chart' valuesToRender)); [|eauto with logs].
  destruct (snd (fst (renderResources K chart' valuesToRender _))); [discriminate|].
  rewrite added_ret. simpl in *. split; [done|]. split; [done|]. split; [congruence|done].
Qed.

Lemma prepareUpgrade_baseline_error name chart vals (s : State K) last err :
  Releases_Last K (cluster s) name = inr last ->
  baseline K (cluster s) name last = inl err ->
  fst (prepareUpgrade K name (Some chart) vals s) = ("", "", Some err).
Proof.
  intros HL HB. unfold prepareUpgrade. rewrite bind_run.
  change (fst (runtime K (CallLast name) (fun cl => Releases_Last K cl name) s))
    with (Releases_Last K (cluster s) name).
  rewrite HL, bind_run, currentReleaseFor_fst.
  change (cluster (snd (runtime K (CallLast name) (fun cl => Releases_Last K cl name) s)))
    with (cluster s).
  by rewrite HB.
Qed.

End Upgrade.

(** ** Release name validation *)

(** C10: [validateReleaseName] accepts a name exactly when it is non-empty,
    at most 53 bytes long and matched by [action.ValidName]; a rejected name
    ends the command with that error before any library call is made: the
    state, call log included, is unchanged. *)
Theorem C10_validateReleaseName (K : Collaborators) (name : string) :
  (validateReleaseName K name = None
   <-> name <> "" /\ (String.length name <= 53)%nat /\ ValidName_MatchString K name = true)
  /\ (forall valueOpts chartPath (s : State K),
        validateReleaseName K name <> None ->
        exists err, validateReleaseName K name = Some err
                    /\ RunE K valueOpts name chartPath s = (Exited err, s)).
Proof.
  split.
  - unfold validateReleaseName.
    destruct (String.eqb_spec name "") as [->|Hne].
    + split; [discriminate|]. by intros [? _].
    + destruct (Nat.ltb_spec 53 (String.length name)) as [Hlt|Hle]; simpl.
      * split; [discriminate|]. intros (_ & ? & _). lia.
      * destruct (ValidName_MatchString K name); simpl.
        -- split; [|done]. intros _. repeat split; [done|lia].
        -- split; [discriminate|]. by intros (_ & _ & ?).
  - intros valueOpts chartPath s Hbad. unfold RunE.
    destruct (validateReleaseName K name) as [err|]; [|done].
    by exists err.
Qed.

Lemma C10_validateReleaseName_witness :
  exists err,
    validateReleaseName Sample.K "Foo" = Some err
    /\ RunE Sample.K tt "Foo" "./foo" (initial Sample.K Sample.steady)
       = (Exited err, initial Sample.K Sample.steady).
Proof.
  apply (C10_validateReleaseName Sample.K "Foo"). vm_compute. discriminate.
Defined.

(** ** The release an upgrade starts from *)

(** C6: the baseline is the most recent record when that is deployed;
    otherwise the record [Releases.Deployed] returns; when that lookup fails
    for want of a deployed release and the most recent record is failed or
    superseded, the most recent record; with any other status the lookup
    error is the result, and [prepareUpgrade] returns it.  When
    [prepareUpgrade] succeeds, the original manifest is the baseline's. *)
Theorem C6_baseline_resolution (K : Collaborators) (cl : Cluster K) (name : string)
    (lastRelease : Release) :
  (Info_Status lastRelease = StatusDeployed ->
     baseline K cl name lastRelease = inr lastRelease)
  /\ (Info_Status lastRelease <> StatusDeployed ->
      forall deployed, Releases_Deployed K cl name = inr deployed ->
        baseline K cl name lastRelease = inr deployed)
  /\ (Info_Status lastRelease = StatusFailed \/ Info_Status lastRelease = StatusSuperseded ->
      forall err, Releases_Deployed K cl name = inl err ->
        Is_ErrNoDeployedReleases K err = true ->
        baseline K cl name lastRelease = inr lastRelease)
  /\ (Info_Status lastRelease <> StatusDeployed ->
      Info_Status lastRelease <> StatusFailed ->
      Info_Status lastRelease <> StatusSuperseded ->
      forall err, Releases_Deployed K cl name = inl err ->
        baseline K cl name lastRelease = inl err)
  /\ (forall (s : State K) chart vals,
        cluster s = cl -> Releases_Last K cl name = inr lastRelease ->
        (forall err, baseline K cl name lastRelease = inl err ->
           fst (prepareUpgrade K name (Some chart) vals s) = ("", "", Some err))
        /\ (forall orig tgt,
              fst (prepareUpgrade K name (Some chart) vals s) = (orig, tgt, None) ->
              exists cur, baseline K cl name lastRelease = inr cur /\ orig = Manifest cur)).
Proof.
  split; [|split; [|split; [|split]]];
    [unfold baseline, currentReleaseFor, runtime, call, bind, ret; simpl ..|].
  - intros ->. reflexivity.
  - intros Hnd d Hd. destruct (String.eqb_spec (Info_Status lastRelease) StatusDeployed); [done|].
    simpl. by rewrite Hd.
  - intros Hfs err Hd He.
    destruct (String.eqb_spec (Info_Status lastRelease) StatusDeployed); [done|].
    simpl. rewrite Hd, He. simpl.
    destruct Hfs as [-> | ->]; reflexivity.
  - intros Hnd Hnf Hns err Hd.
    destruct (String.eqb_spec (Info_Status lastRelease) StatusDeployed); [done|].
    simpl. rewrite Hd.
    destruct (String.eqb_spec (Info_Status lastRelease) StatusFailed); [done|].
    destruct (String.eqb_spec (Info_Status lastRelease) StatusSuperseded); [done|].
    by rewrite andb_false_r.
  - intros s chart vals <- HL. split.
    + intros err Hb. by apply (prepareUpgrade_baseline_error name chart vals s lastRelease).
    + intros orig tgt Hok.
      destruct (prepareUpgrade_success _ _ _ _ _ _ Hok) as (last & cur & HL' & HB & Ho & _).
      exists cur. split; [|done]. congruence.
Qed.

Lemma C6_baseline_resolution_witness :
  baseline Sample.K Sample.failedUpgrade "foo" (Sample.release StatusFailed 5 "default")
  = inr (Sample.release StatusDeployed 3 "prod").
Proof.
  apply (C6_baseline_resolution Sample.K Sample.failedUpgrade "foo"
           (Sample.release StatusFailed 5 "default")).
  - vm_compute. discriminate.
  - reflexivity.
Defined.


(** ** The render context *)




(** ** Reads only *)

Lemma replay_unchanged {K : Collaborators} (effect : Call -> Cluster K -> Cluster K)
    (l : list Call) (cl : Cluster K) :
  (forall c cl, access c <> RuntimeWrite -> effect c cl = cl) ->
  Forall noWrite l -> replay effect l cl = cl.
Proof.
  intros Heff Hl. unfold replay. induction Hl as [|c l Hc _ IH]; [done|].
  simpl. by rewrite (Heff c cl Hc).
Qed.

(** C9: let [effect] be what each client call does to the runtime, and let
    it be arbitrary for the clients' mutating methods.  If the reads (the
    reachability check, the release lookups, discovery, rendering with the
    client, building the resources, looking a live object up) leave the
    runtime unchanged and the local calls do not reach it, then a run of the
    command, of [createPatchset] or of [createPatch] makes none of the
    mutating calls, and the runtime after its calls is the runtime before. *)
Theorem C9_read_only (K : Collaborators) (effect : Call -> Cluster K -> Cluster K) :
  (forall c cl, access c = RuntimeRead -> effect c cl = cl) ->
  (forall c cl, access c = LocalOnly -> effect c cl = cl) ->
  (forall valueOpts name chartPath (cl : Cluster K),
     Forall (fun c => access c <> RuntimeWrite)
            (calls (snd (RunE K valueOpts name chartPath (initial K cl))))
     /\ replay effect (calls (snd (RunE K valueOpts name chartPath (initial K cl)))) cl = cl
     /\ cluster (snd (RunE K valueOpts name chartPath (initial K cl))) = cl)
  /\ (forall name ch vals (s : State K),
       Forall (fun c => access c <> RuntimeWrite) (added (createPatchset K name ch vals) s)
       /\ replay effect (added (createPatchset K name ch vals) s) (cluster s) = cluster s
       /\ cluster (snd (createPatchset K name ch vals s)) = cluster s)
  /\ (forall current target (s : State K),
       Forall (fun c => access c <> RuntimeWrite) (added (createPatch K current target) s)
       /\ replay effect (added (createPatch K current target) s) (cluster s) = cluster s
       /\ cluster (snd (createPatch K current target s)) = cluster s).
Proof.
  intros Hread Hlocal.
  assert (Heff : forall c cl, access c <> RuntimeWrite -> effect c cl = cl).
  { intros c cl Hc. destruct (access c) eqn:E; [by apply Hlocal|by apply Hread|done]. }
  split; [|split].
  - intros valueOpts name chartPath cl.
    destruct (RunE_noWrite valueOpts name chartPath (initial K cl)) as [Hc [l [Hl HP]]].
    simpl in Hl. rewrite Hl.
    split; [exact HP|]. split; [by apply replay_unchanged|exact Hc].
  - intros name ch vals s.
    pose proof (Logs_added noWrite _ s (createPatchset_noWrite name ch vals)) as HP.
    split; [exact HP|]. split; [by apply replay_unchanged|].
    apply (Logs_cluster noWrite), createPatchset_noWrite.
  - intros current target s.
    pose proof (Logs_added noWrite _ s (Logs_noWrite _ (createPatch_quiet current target)))
      as HP.
    split; [exact HP|]. split; [by apply replay_unchanged|].
    apply (Logs_cluster quiet), createPatch_quiet.
Qed.

Lemma C9_read_only_witness :
  Forall (fun c => access c <> RuntimeWrite)
         (calls (snd (RunE Sample.K tt "foo" "./foo" (initial Sample.K Sample.steady))))
  /\ replay (K:=Sample.K) Sample.effect
       (calls (snd (RunE Sample.K tt "foo" "./foo" (initial Sample.K Sample.steady))))
       Sample.steady
     = Sample.steady
  /\ cluster (snd (RunE Sample.K tt "foo" "./foo" (initial Sample.K Sample.steady)))
     = Sample.steady.
Proof.
  apply (C9_read_only Sample.K Sample.effect).
  - intros c cl H. unfold Sample.effect. rewrite H. reflexivity.
  - intros c cl H. unfold Sample.effect. rewrite H. reflexivity.
Defined.

(** The statement is about the calls made: had a run deleted a resource, the
    sample runtime would not be what it was. *)
Example a_delete_would_change_the_runtime :
  replay (K:=Sample.K) Sample.effect
    (added (runtime Sample.K CallDelete (fun _ => tt)) (initial Sample.K Sample.steady))
    Sample.steady
  <> Sample.steady.
Proof. vm_compute. discriminate. Qed.

(** ** Live lookups per resource *)

Section Visiting.
Context {K : Collaborators}.
Variable original : list (Info (Object K)).

Lemma isGetOf_self (info : Info (Object K)) :
  isGetOf K info (CallGet (Mapping info) (Namespace info) (Name info) (Export info)) = true.
Proof.
  unfold isGetOf. rewrite !String.eqb_refl. simpl. by destruct (Export info).
Qed.

Lemma createPatch_added current target (s : State K) :
  added (createPatch K current target) s =
  if marshals K current && marshals K (InfoObject target)
  then [CallGet (Mapping target) (Namespace target) (Name target) (Export target)]
  else [].
Proof.
  unfold added, marshals, createPatch, Get, runtime, call, bind, ret.
  destruct (json_Marshal K (Some current)); simpl; [by rewrite drop_all|].
  destruct (json_Marshal K (Some (InfoObject target))); simpl; [by rewrite drop_all|].
  repeat case_match; simpl; by rewrite drop_app_length.
Qed.

Lemma createPatch_fst current target (s : State K) :
  fst (createPatch K current target s)
  = fst (createPatch K current target (initial K (cluster s))).
Proof.
  unfold createPatch, Get, runtime, call, bind, ret.
  destruct (json_Marshal K (Some current)); simpl; [done|].
  destruct (json_Marshal K (Some (InfoObject target))); simpl; [done|].
  repeat case_match; simpl in *; congruence.
Qed.

Lemma visitFn_added info patches (s : State K) :
  added (visitFn K original info None patches) s =
  let g := CallGet (Mapping info) (Namespace info) (Name info) (Export info) in
  if reachesMerge K (cluster s) original info then [g; g] else [g].
Proof.
  unfold visitFn, reachesMerge, existsLive, lookupLive.
  rewrite (added_bind quiet quiet); [|eauto with logs|logs quiet_call].
  unfold Get at 1. rewrite added_runtime.
  change (snd (fst (Get K info s)))
    with (snd (helper_Get K (cluster s) (Mapping info) (Namespace info) (Name info) (Export info))).
  destruct (apierrors_IsNotFound K _); simpl; [by rewrite added_ret|].
  destruct (ResourceList_Get K original info) as [o|]; [|by rewrite added_ret].
  rewrite (added_bind quiet quiet); [|eauto with logs|logs quiet_call].
  rewrite createPatch_added.
  destruct (createPatch K (InfoObject o) info _) as [[[patch kind] err] s2]. simpl.
  destruct (marshals K (InfoObject o) && marshals K (InfoObject info));
    destruct err; by rewrite added_ret.
Qed.

Lemma visitFn_fst info patches (s : State K) :
  fst (visitFn K original info None patches s) =
  if existsLive K (cluster s) info then
    match ResourceList_Get K original info with
    | None => (patches, Some (Errorf "could not find %q" [Name info]))
    | Some o =>
        let '(patch, _, err) := fst (createPatch K (InfoObject o) info (initial K (cluster s))) in
        match err with
        | Some e => (patches, Some e)
        | None => (app patches [string_of_bytes patch], None)
        end
    end
  else (patches, None).
Proof.
  unfold visitFn, existsLive, lookupLive. rewrite bind_run.
  change (snd (fst (Get K info s)))
    with (snd (helper_Get K (cluster s) (Mapping info) (Namespace info) (Name info) (Export info))).
  destruct (apierrors_IsNotFound K _); simpl; [done|].
  destruct (ResourceList_Get K original info) as [o|]; [|done].
  rewrite bind_run, createPatch_fst. simpl (cluster _).
  destruct (fst (createPatch K (InfoObject o) info (initial K (cluster s)))) as [[patch kind] err].
  by destruct err.
Qed.

Lemma createPatch_ok_lookup current target (s : State K) :
  snd (fst (createPatch K current target s)) = None ->
  apierrors_IsNotFound K (snd (lookupLive K (cluster s) target)) = false ->
  snd (lookupLive K (cluster s) target) = None.
Proof.
  unfold lookupLive, createPatch, Get, runtime, call, bind, ret.
  destruct (json_Marshal K (Some current)); simpl; [done|].
  destruct (json_Marshal K (Some (InfoObject target))); simpl; [done|].
  intros H Hnf. rewrite Hnf in H. simpl in H.
  destruct (snd (helper_Get K (cluster s) _ _ _ _)); [discriminate H|done].
Qed.

Lemma Visit_cons info rest fn patches (s : State K) :
  Visit K (info :: rest) fn patches s =
  match snd (fst (fn info None patches s)) with
  | Some err => ((fst (fst (fn info None patches s)), Some err), snd (fn info None patches s))
  | None => Visit K rest fn (fst (fst (fn info None patches s))) (snd (fn info None patches s))
  end.
Proof.
  change (Visit K (info :: rest) fn patches)
    with (bind (fn info None patches)
               (fun x => match snd x with
                         | Some err => ret (fst x, Some err)
                         | None => Visit K rest fn (fst x)
                         end)).
  rewrite bind_run. by destruct (snd (fst (fn info None patches s))).
Qed.

Lemma Visit_patches target : forall patches (s s' : State K) patches',
  Visit K target (visitFn K original) patches s = ((patches', None), s') ->
  patches' = app patches (map (patchFor K (cluster s) original)
                              (List.filter (existsLive K (cluster s)) target))
  /\ Forall (fun info => existsLive K (cluster s) info = true ->
                         snd (lookupLive K (cluster s) info) = None) target.
Proof.
  induction target as [|info rest IH]; intros patches s s' patches' H.
  - inversion H. simpl. split; [by rewrite app_nil_r|constructor].
  - rewrite Visit_cons in H.
    pose proof (visitFn_fst info patches s) as Hv.
    pose proof (Logs_cluster quiet _ s (visitFn_quiet original info None patches)) as Hc.
    destruct (visitFn K original info None patches s) as [[p1 e1] s1]. simpl in *.
    destruct e1 as [e|]; [inversion H|].
    apply IH in H. rewrite Hc in H. destruct H as [-> HF].
    unfold patchFor.
    destruct (existsLive K (cluster s) info) eqn:Hlive; simpl.
    + destruct (ResourceList_Get K original info) as [o|]; [|discriminate Hv].
      pose proof (createPatch_ok_lookup (InfoObject o) info (initial K (cluster s))) as Hok.
      destruct (fst (createPatch K (InfoObject o) info (initial K (cluster s))))
        as [[patch kind] err].
      destruct err; [discriminate Hv|]. inversion Hv; subst p1. simpl in *.
      split; [by rewrite <- app_assoc|].
      constructor; [|done]. intros _. apply Hok; [done|].
      unfold existsLive in Hlive. by destruct (apierrors_IsNotFound K _).
    + inversion Hv; subst p1. split; [done|]. constructor; [congruence|done].
Qed.

End Visiting.

Section Patchset.
Context {K : Collaborators}.

Lemma Visit_total original target : forall patches (s : State K),
  Forall (fun info => existsLive K (cluster s) info = true ->
                      patchable K (cluster s) original info = true) target ->
  fst (Visit K target (visitFn K original) patches s)
  = (app patches (map (patchFor K (cluster s) original)
                      (List.filter (existsLive K (cluster s)) target)), None).
Proof.
  induction target as [|info rest IH]; intros patches s HF.
  - simpl. by rewrite app_nil_r.
  - inversion HF as [|? ? Hinfo Hrest]; subst.
    rewrite Visit_cons.
    pose proof (visitFn_fst original info patches s) as Hv.
    pose proof (Logs_cluster quiet _ s (visitFn_quiet original info None patches)) as Hc.
    destruct (visitFn K original info None patches s) as [[p1 e1] s1]. simpl in Hv, Hc.
    simpl fst. simpl snd. rewrite <- Hc in Hrest.
    cbn [List.filter]. unfold patchable, patchFor in *.
    destruct (existsLive K (cluster s) info).
    + specialize (Hinfo eq_refl). cbn [map].
      destruct (ResourceList_Get K original info) as [o|]; [|discriminate Hinfo].
      destruct (fst (createPatch K (InfoObject o) info (initial K (cluster s))))
        as [[patch kind] err].
      destruct err; [discriminate Hinfo|]. inversion Hv; subst p1 e1.
      rewrite (IH _ s1 Hrest), Hc. simpl. by rewrite <- app_assoc.
    + inversion Hv; subst p1 e1. by rewrite (IH _ s1 Hrest), Hc.
Qed.

Lemma Visit_ok_patchable original target : forall patches (s : State K),
  snd (fst (Visit K target (visitFn K original) patches s)) = None ->
  Forall (fun info => existsLive K (cluster s) info = true ->
                      patchable K (cluster s) original info = true) target.
Proof.
  induction target as [|info rest IH]; intros patches s H; [constructor|].
  rewrite Visit_cons in H.
  pose proof (visitFn_fst original info patches s) as Hv.
  pose proof (Logs_cluster quiet _ s (visitFn_quiet original info None patches)) as Hc.
  destruct (visitFn K original info None patches s) as [[p1 e1] s1]. simpl in *.
  destruct e1 as [e|]; [discriminate H|].
  apply IH in H. rewrite Hc in H. constructor; [|done].
  intros Hlive. rewrite Hlive in Hv. unfold patchable.
  destruct (ResourceList_Get K original info) as [o|]; [|discriminate Hv].
  destruct (fst (createPatch K (InfoObject o) info (initial K (cluster s))))
    as [[patch kind] err].
  by destruct err.
Qed.

Lemma createPatchset_run name ch vals (s : State K) om tm original target :
  Configuration_Init K = None ->
  KubeClient_IsReachable K (cluster s) = None ->
  fst (prepareUpgrade K name ch vals (checked K s)) = (om, tm, None) ->
  KubeClient_Build K (cluster s) om false = inr original ->
  KubeClient_Build K (cluster s) tm false = inr target ->
  exists s2,
    cluster s2 = cluster s
    /\ fst (createPatchset K name ch vals s)
       = Returns (formatPatchset (fst (fst (Visit K target (visitFn K original) [] s2))),
                  snd (fst (Visit K target (visitFn K original) [] s2))).
Proof.
  intros Hinit Hreach Hprep Ho Ht. unfold createPatchset.
  rewrite bind_run, Hinit, bind_run.
  change (fst (runtime K CallIsReachable (KubeClient_IsReachable K) (snd (call K CallInit s))))
    with (KubeClient_IsReachable K (cluster s)).
  rewrite Hreach, bind_run.
  change (snd (runtime K CallIsReachable (KubeClient_IsReachable K) (snd (call K CallInit s))))
    with (checked K s).
  pose proof (Logs_cluster noWrite _ (checked K s) (prepareUpgrade_noWrite name ch vals)) as Hp.
  destruct (prepareUpgrade K name ch vals (checked K s)) as [[[om' tm'] err] sp].
  simpl in Hprep, Hp. inversion Hprep; subst om' tm' err.
  change (cluster (checked K s)) with (cluster s) in Hp.
  cbn [fst snd]. cbv beta iota. rewrite bind_run.
  change (fst (runtime K (CallBuild om) (fun cl => KubeClient_Build K cl om false) sp))
    with (KubeClient_Build K (cluster sp) om false).
  rewrite Hp, Ho, bind_run.
  match goal with
  | |- context [runtime K (CallBuild tm) ?f ?st] =>
      change (fst (runtime K (CallBuild tm) f st))
        with (KubeClient_Build K (cluster sp) tm false)
  end.
  rewrite Hp, Ht, bind_run.
  match goal with |- context [Visit K target ?f ?p ?st] => exists st end.
  split; [exact Hp|reflexivity].
Qed.

Lemma createPatchset_inv name ch vals (s : State K) out :
  fst (createPatchset K name ch vals s) = Returns (out, None) ->
  Configuration_Init K = None
  /\ KubeClient_IsReachable K (cluster s) = None
  /\ exists om tm original target,
       fst (prepareUpgrade K name ch vals (checked K s)) = (om, tm, None)
       /\ KubeClient_Build K (cluster s) om false = inr original
       /\ KubeClient_Build K (cluster s) tm false = inr target.
Proof.
  unfold createPatchset. intros H.
  rewrite bind_run in H. destruct (Configuration_Init K); [discriminate|].
  rewrite bind_run in H.
  change (fst (runtime K CallIsReachable (KubeClient_IsReachable K) (snd (call K CallInit s))))
    with (KubeClient_IsReachable K (cluster s)) in H.
  destruct (KubeClient_IsReachable K (cluster s)); [discriminate|].
  rewrite bind_run in H.
  change (snd (runtime K CallIsReachable (KubeClient_IsReachable K) (snd (call K CallInit s))))
    with (checked K s) in H.
  pose proof (Logs_cluster noWrite _ (checked K s) (prepareUpgrade_noWrite name ch vals)) as Hp.
  destruct (prepareUpgrade K name ch vals (checked K s)) as [[[om tm] err] sp].
  simpl in H, Hp. change (cluster (checked K s)) with (cluster s) in Hp.
  destruct err; [discriminate|].
  rewrite bind_run in H.
  change (fst (runtime K (CallBuild om) (fun cl => KubeClient_Build K cl om false) sp))
    with (KubeClient_Build K (cluster sp) om false) in H.
  rewrite Hp in H.
  destruct (KubeClient_Build K (cluster s) om false) as [e|original] eqn:Eo; [discriminate|].
  rewrite bind_run in H.
  match type of H with
  | context [runtime K (CallBuild tm) ?f ?st] =>
      change (fst (runtime K (CallBuild tm) f st))
        with (KubeClient_Build K (cluster sp) tm false) in H
  end.
  rewrite Hp in H.
  destruct (KubeClient_Build K (cluster s) tm false) as [e|target] eqn:Et; [discriminate|].
  repeat split. by exists om, tm, original, target.
Qed.

(** With the checks passed and the manifests built, what [createPatchset]
    returns is decided by the traversal. *)
Lemma createPatchset_patches name ch vals (s : State K) om tm original target :
  Configuration_Init K = None ->
  KubeClient_IsReachable K (cluster s) = None ->
  fst (prepareUpgrade K name ch vals (checked K s)) = (om, tm, None) ->
  KubeClient_Build K (cluster s) om false = inr original ->
  KubeClient_Build K (cluster s) tm false = inr target ->
  (Forall (fun info => existsLive K (cluster s) info = true ->
                       patchable K (cluster s) original info = true) target ->
   fst (createPatchset K name ch vals s)
   = Returns (formatPatchset (map (patchFor K (cluster s) original)
                                  (List.filter (existsLive K (cluster s)) target)), None))
  /\ (forall out,
        fst (createPatchset K name ch vals s) = Returns (out, None) ->
        out = formatPatchset (map (patchFor K (cluster s) original)
                                  (List.filter (existsLive K (cluster s)) target))
        /\ Forall (fun info => existsLive K (cluster s) info = true ->
                               patchable K (cluster s) original info = true
                               /\ snd (lookupLive K (cluster s) info) = None) target).
Proof.
  intros Hinit Hreach Hprep Ho Ht.
  destruct (createPatchset_run name ch vals s om tm original target Hinit Hreach Hprep Ho Ht)
    as (s2 & Hs2 & Hrun).
  rewrite Hrun. split.
  - intros HF. rewrite <- Hs2 in HF. rewrite (Visit_total original target [] s2 HF).
    by rewrite Hs2.
  - intros out H. inversion H as [[Hout Herr]].
    pose proof (Visit_ok_patchable original target [] s2 Herr) as HF.
    rewrite (Visit_total original target [] s2 HF), Hs2. split; [done|].
    destruct (Visit K target (visitFn K original) [] s2) as [[p e] s3] eqn:Ev.
    simpl in Herr. subst e. apply Visit_patches in Ev. destruct Ev as [_ Hl].
    rewrite Hs2 in HF, Hl. rewrite Forall_forall in HF, Hl. apply Forall_forall.
    intros info Hin Hlive. split; [by apply HF|by apply Hl].
Qed.

End Patchset.

(** C8, as the code has it: the visit of a target resource looks the live
    object up once in [createPatchset] and, when that lookup is not NotFound,
    an original matches and both declared bodies serialize, a second time in
    [createPatch]; it makes no other call, so no lookup serves two resources. *)
Theorem C8_live_lookups (K : Collaborators) (original : list (Info (Object K)))
    (info : Info (Object K)) (patches : list string) (s : State K) :
  added (visitFn K original info None patches) s
  = (if reachesMerge K (cluster s) original info
     then [CallGet (Mapping info) (Namespace info) (Name info) (Export info);
           CallGet (Mapping info) (Namespace info) (Name info) (Export info)]
     else [CallGet (Mapping info) (Namespace info) (Name info) (Export info)])
  /\ length (List.filter (isGetOf K info) (added (visitFn K original info None patches) s))
     = (if reachesMerge K (cluster s) original info then 2 else 1)%nat.
Proof.
  rewrite visitFn_added. cbv zeta.
  destruct (reachesMerge K (cluster s) original info); (split; [reflexivity|]);
    cbn [List.filter]; rewrite !isGetOf_self; reflexivity.
Qed.

(** The deployment of the sample release is live and unchanged: its visit
    looks it up twice. *)
Lemma C8_fetched_twice_counterexample :
  length (List.filter (isGetOf Sample.K (Sample.deployment Sample.Typed "web" "replicas: 1"))
            (added (visitFn Sample.K (Sample.originalInfos Sample.steady)
                      (Sample.deployment Sample.Typed "web" "replicas: 1") None [])
                   (initial Sample.K Sample.steady)))
  = 2%nat.
Proof. vm_compute. reflexivity. Qed.

(** ** Resources that are not live *)

(** C2, as the code has it.  A target resource whose lookup answers NotFound
    adds no patch and no error.  The traversal ends without error exactly
    when every live target resource has an original and a patch; the patches
    it has then collected are one for each target resource whose lookup did
    not answer NotFound, in the order of the target manifest, as many as
    there are such resources.  With the runtime reachable and the manifests
    of [prepareUpgrade] built, [createPatchset] then returns these patches,
    bracketed and comma-joined, and it returns nothing else without error. *)
Theorem C2_not_found_skipped (K : Collaborators) :
  (forall original info patches (s : State K),
     existsLive K (cluster s) info = false ->
     fst (visitFn K original info None patches s) = (patches, None))
  /\ (forall original target (s : State K),
       (Forall (fun info => existsLive K (cluster s) info = true ->
                            patchable K (cluster s) original info = true) target ->
        fst (Visit K target (visitFn K original) [] s)
        = (map (patchFor K (cluster s) original)
               (List.filter (existsLive K (cluster s)) target), None))
       /\ (forall patches,
             fst (Visit K target (visitFn K original) [] s) = (patches, None) ->
             patches = map (patchFor K (cluster s) original)
                           (List.filter (existsLive K (cluster s)) target)
             /\ length patches = length (List.filter (existsLive K (cluster s)) target)
             /\ Forall (fun info => existsLive K (cluster s) info = true ->
                                    patchable K (cluster s) original info = true) target))
  /\ (forall name ch vals (s : State K) om tm original target,
       Configuration_Init K = None ->
       KubeClient_IsReachable K (cluster s) = None ->
       fst (prepareUpgrade K name ch vals (checked K s)) = (om, tm, None) ->
       KubeClient_Build K (cluster s) om false = inr original ->
       KubeClient_Build K (cluster s) tm false = inr target ->
       (Forall (fun info => existsLive K (cluster s) info = true ->
                            patchable K (cluster s) original info = true) target ->
        fst (createPatchset K name ch vals s)
        = Returns (formatPatchset (map (patchFor K (cluster s) original)
                                       (List.filter (existsLive K (cluster s)) target)), None))
       /\ (forall out,
             fst (createPatchset K name ch vals s) = Returns (out, None) ->
             out = formatPatchset (map (patchFor K (cluster s) original)
                                       (List.filter (existsLive K (cluster s)) target))))
  /\ (forall name ch vals (s : State K) out,
       fst (createPatchset K name ch vals s) = Returns (out, None) ->
       exists om tm original target,
         fst (prepareUpgrade K name ch vals (checked K s)) = (om, tm, None)
         /\ KubeClient_Build K (cluster s) om false = inr original
         /\ KubeClient_Build K (cluster s) tm false = inr target
         /\ out = formatPatchset (map (patchFor K (cluster s) original)
                                      (List.filter (existsLive K (cluster s)) target))).
Proof.
  split; [|split; [|split]].
  - intros original info patches s Hlive. by rewrite visitFn_fst, Hlive.
  - intros original target s. split.
    + intros HF. by rewrite (Visit_total original target [] s HF).
    + intros patches H.
      assert (HF : Forall (fun info => existsLive K (cluster s) info = true ->
                             patchable K (cluster s) original info = true) target).
      { apply (Visit_ok_patchable original target [] s). by rewrite H. }
      rewrite (Visit_total original target [] s HF) in H. inversion H. simpl.
      split; [done|]. split; [by rewrite length_map|done].
  - intros name ch vals s om tm original target Hinit Hreach Hprep Ho Ht.
    destruct (createPatchset_patches name ch vals s om tm original target
                Hinit Hreach Hprep Ho Ht) as [Hfwd Hback].
    split; [exact Hfwd|]. intros out H. by destruct (Hback out H).
  - intros name ch vals s out H.
    destruct (createPatchset_inv name ch vals s out H)
      as (Hinit & Hreach & om & tm & original & target & Hprep & Ho & Ht).
    exists om, tm, original, target. repeat split; try done.
    destruct (createPatchset_patches name ch vals s om tm original target
                Hinit Hreach Hprep Ho Ht) as [_ Hback].
    by destruct (Hback out H).
Qed.

Lemma C2_not_found_skipped_witness :
  fst (visitFn Sample.K (Sample.originalInfos Sample.failedUpgrade)
         (Sample.deployment Sample.Typed "job" "x") None ["{}"]
         (initial Sample.K Sample.failedUpgrade))
  = (["{}"], None)
  /\ fst (Visit Sample.K (Sample.targetInfos Sample.failedUpgrade)
            (visitFn Sample.K (Sample.originalInfos Sample.failedUpgrade)) []
            (initial Sample.K Sample.failedUpgrade))
     = (map (patchFor Sample.K Sample.failedUpgrade (Sample.originalInfos Sample.failedUpgrade))
            (List.filter (existsLive Sample.K Sample.failedUpgrade)
                         (Sample.targetInfos Sample.failedUpgrade)), None)
  /\ fst (createPatchset Sample.K "foo" (Some tt) tt (initial Sample.K Sample.failedUpgrade))
     = Returns (formatPatchset
                  (map (patchFor Sample.K Sample.failedUpgrade
                          (Sample.originalInfos Sample.failedUpgrade))
                       (List.filter (existsLive Sample.K Sample.failedUpgrade)
                                    (Sample.targetInfos Sample.failedUpgrade))), None)
  /\ formatPatchset
       (map (patchFor Sample.K Sample.failedUpgrade (Sample.originalInfos Sample.failedUpgrade))
            (List.filter (existsLive Sample.K Sample.failedUpgrade)
                         (Sample.targetInfos Sample.failedUpgrade)))
     = "[replicas: 3]".
Proof.
  destruct (C2_not_found_skipped Sample.K) as (Hskip & Hvisit & Hset & _).
  split; [|split; [|split]].
  - apply Hskip. vm_compute. reflexivity.
  - apply (Hvisit (Sample.originalInfos Sample.failedUpgrade)
             (Sample.targetInfos Sample.failedUpgrade) (initial Sample.K Sample.failedUpgrade)).
    simpl (Sample.targetInfos Sample.failedUpgrade).
    repeat (constructor; [vm_compute; intros H; first [reflexivity | discriminate H]|]).
    constructor.
  - refine (proj1 (Hset "foo" (Some tt) tt (initial Sample.K Sample.failedUpgrade)
                     "original"
                     (snd (fst (fst (prepareUpgrade Sample.K "foo" (Some tt) tt
                                       (checked Sample.K (initial Sample.K Sample.failedUpgrade))))))
                     (Sample.originalInfos Sample.failedUpgrade)
                     (Sample.targetInfos Sample.failedUpgrade)
                     eq_refl eq_refl _ _ _) _).
    + vm_compute. reflexivity.
    + reflexivity.
    + vm_compute. reflexivity.
    + simpl (Sample.targetInfos Sample.failedUpgrade).
      repeat (constructor; [vm_compute; intros H; first [reflexivity | discriminate H]|]).
      constructor.
  - vm_compute. reflexivity.
Defined.

(** Two target resources are live, one of them without an original: the
    computation returns an error, and the string next to it holds one patch,
    not two. *)
Lemma C2_every_input_counterexample :
  length (List.filter (existsLive Sample.K Sample.adopted) (Sample.targetInfos Sample.adopted))
  = 2%nat
  /\ fst (Visit Sample.K (Sample.targetInfos Sample.adopted)
            (visitFn Sample.K (Sample.originalInfos Sample.adopted)) []
            (initial Sample.K Sample.adopted))
     = (["{}"], Some (Errorf "could not find %q" ["cache"]))
  /\ fst (createPatchset Sample.K "foo" (Some tt) tt (initial Sample.K Sample.adopted))
     = Returns (formatPatchset ["{}"], Some (Errorf "could not find %q" ["cache"])).
Proof. vm_compute. repeat split. Qed.

(** ** Resources without an original *)

Lemma Visit_app {K : Collaborators} pre post fn patches (s : State K) p1 s1 :
  Visit K pre fn patches s = ((p1, None), s1) ->
  Visit K (pre ++ post)%list fn patches s = Visit K post fn p1 s1.
Proof.
  revert patches s. induction pre as [|i pre IH]; intros patches s H.
  - by inversion H.
  - rewrite <- app_comm_cons, Visit_cons. rewrite Visit_cons in H.
    destruct (snd (fst (fn i None patches s))); [discriminate H|].
    by apply IH.
Qed.

(** C1, as the code has it: for a target resource whose lookup is not
    NotFound and that no original resource matches, the visit returns the
    error [could not find] and adds no patch; the traversal stops there and
    returns that error with the patches collected before. *)
Theorem C1_unmatched_target_fails (K : Collaborators) (original : list (Info (Object K)))
    (info : Info (Object K)) (s : State K) :
  existsLive K (cluster s) info = true ->
  ResourceList_Get K original info = None ->
  (forall patches,
     fst (visitFn K original info None patches s)
     = (patches, Some (Errorf "could not find %q" [Name info])))
  /\ (forall pre post patches s0 p1,
       Visit K pre (visitFn K original) patches s0 = ((p1, None), s) ->
       fst (Visit K (pre ++ info :: post)%list (visitFn K original) patches s0)
       = (p1, Some (Errorf "could not find %q" [Name info]))).
Proof.
  intros Hlive Hnone.
  assert (Hv : forall patches, fst (visitFn K original info None patches s)
                 = (patches, Some (Errorf "could not find %q" [Name info]))).
  { intros patches. by rewrite visitFn_fst, Hlive, Hnone. }
  split; [exact Hv|].
  intros pre post patches s0 p1 Hpre.
  rewrite (Visit_app _ _ _ _ _ _ _ Hpre), Visit_cons, (Hv p1). reflexivity.
Qed.

Lemma C1_unmatched_target_fails_witness :
  (forall patches,
     fst (visitFn Sample.K (Sample.originalInfos Sample.adopted)
            (Sample.deployment Sample.Typed "cache" "replicas: 2") None patches
            (initial Sample.K Sample.adopted))
     = (patches, Some (Errorf "could not find %q" ["cache"])))
  /\ (forall pre post patches s0 p1,
       Visit Sample.K pre (visitFn Sample.K (Sample.originalInfos Sample.adopted)) patches s0
       = ((p1, None), initial Sample.K Sample.adopted) ->
       fst (Visit Sample.K (pre ++ Sample.deployment Sample.Typed "cache" "replicas: 2" :: post)%list
              (visitFn Sample.K (Sample.originalInfos Sample.adopted)) patches s0)
       = (p1, Some (Errorf "could not find %q" ["cache"]))).
Proof.
  apply (C1_unmatched_target_fails Sample.K (Sample.originalInfos Sample.adopted)
           (Sample.deployment Sample.Typed "cache" "replicas: 2")
           (initial Sample.K Sample.adopted)).
  - vm_compute. reflexivity.
  - vm_compute. reflexivity.
Defined.

(** The new chart declares [cache], which is live but not in the original
    manifest: the computation fails instead of producing a patch for it. *)
Lemma C1_unmatched_target_counterexample :
  existsLive Sample.K Sample.adopted (Sample.deployment Sample.Typed "cache" "replicas: 2") = true
  /\ ResourceList_Get Sample.K (Sample.originalInfos Sample.adopted)
       (Sample.deployment Sample.Typed "cache" "replicas: 2") = None
  /\ fst (createPatchset Sample.K "foo" (Some tt) tt (initial Sample.K Sample.adopted))
     = Returns ("[{}]", Some (Errorf "could not find %q" ["cache"]))
  /\ fst (RunE Sample.K tt "foo" "./foo" (initial Sample.K Sample.adopted))
     = Exited (Errorf "could not find %q" ["cache"]).
Proof. vm_compute. repeat split. Qed.

(** ** The patch of one resource *)

Section Patch.
Context {K : Collaborators}.

Lemma createPatch_inv current target (s : State K) patch kind :
  fst (createPatch K current target s) = (patch, kind, None) ->
  exists old new cur,
    json_Marshal K (Some current) = inr old
    /\ json_Marshal K (Some (InfoObject target)) = inr new
    /\ json_Marshal K (fst (lookupLive K (cluster s) target)) = inr cur
    /\ if schemaless K target
       then kind = MergePatchType /\ CreateMergePatch K old new = (patch, None)
       else kind = StrategicMergePatchType
            /\ exists meta, NewPatchMetaFromStruct K (AsVersioned K target) = inr meta
                 /\ CreateThreeWayMergePatch K old new cur meta true = (patch, None).
Proof.
  unfold schemaless, lookupLive, createPatch, Get, runtime, call, bind, ret.
  destruct (json_Marshal K (Some current)) as [e|old]; simpl; [done|].
  destruct (json_Marshal K (Some (InfoObject target))) as [e|new]; simpl; [done|].
  destruct (snd (helper_Get K (cluster s) _ _ _ _)) as [e|]; simpl;
    [destruct (IsNotFound K e); simpl; [|discriminate]|].
  all: try (intros; discriminate).
  all: destruct (json_Marshal K (fst (helper_Get K (cluster s) _ _ _ _))) as [e'|cur];
    simpl; [done|].
  all: intros H; exists old, new, cur; repeat split.
  all: destruct (isUnstructured K (AsVersioned K target) || _).
  all: try (destruct (CreateMergePatch K old new) as [p e'']; simpl in H; by inversion H).
  all: destruct (NewPatchMetaFromStruct K (AsVersioned K target)) as [e''|meta]; [done|].
  all: split; [by destruct (CreateThreeWayMergePatch K old new cur meta true); inversion H|].
  all: exists meta; split; [done|].
  all: destruct (CreateThreeWayMergePatch K old new cur meta true) as [p e''].
  all: simpl in H; by inversion H.
Qed.

End Patch.

(** C3: for a schemaless resource, two runs of [createPatch] against
    different runtimes that both return a patch return the same bytes, the
    generic merge patch of the serialized original and target bodies; and
    whenever both lookups can be used at all (no error but NotFound, a live
    object that serializes) the two runs return the same result. *)
Theorem C3_schemaless_ignores_live (K : Collaborators) (current : Object K)
    (target : Info (Object K)) (s1 s2 : State K) :
  schemaless K target = true ->
  (forall p1 k1 p2 k2,
     fst (createPatch K current target s1) = (p1, k1, None) ->
     fst (createPatch K current target s2) = (p2, k2, None) ->
     p1 = p2 /\ k1 = MergePatchType /\ k2 = MergePatchType
     /\ exists old new,
          json_Marshal K (Some current) = inr old
          /\ json_Marshal K (Some (InfoObject target)) = inr new
          /\ CreateMergePatch K old new = (p1, None))
  /\ (liveReadable K (cluster s1) target = true ->
      liveReadable K (cluster s2) target = true ->
      fst (createPatch K current target s1) = fst (createPatch K current target s2)).
Proof.
  intros Hs. split.
  - intros p1 k1 p2 k2 H1 H2.
    apply createPatch_inv in H1. destruct H1 as (old & new & cur & Ho & Hn & _ & H1).
    apply createPatch_inv in H2. destruct H2 as (old' & new' & cur' & Ho' & Hn' & _ & H2).
    rewrite Hs in H1, H2. destruct H1 as [-> H1], H2 as [-> H2].
    assert (old' = old) by congruence. assert (new' = new) by congruence. subst.
    split; [congruence|]. split; [done|]. split; [done|]. by exists old, new.
  - unfold liveReadable, lookupLive, schemaless in *.
    unfold createPatch, Get, runtime, call, bind, ret.
    destruct (json_Marshal K (Some current)) as [e|old]; simpl; [done|].
    destruct (json_Marshal K (Some (InfoObject target))) as [e|new]; simpl; [done|].
    intros [Hn1 Hm1]%andb_true_iff [Hn2 Hm2]%andb_true_iff.
    apply negb_true_iff in Hn1, Hn2. rewrite Hn1, Hn2. simpl.
    destruct (json_Marshal K (fst (helper_Get K (cluster s1) _ _ _ _))); [discriminate|].
    destruct (json_Marshal K (fst (helper_Get K (cluster s2) _ _ _ _))); [discriminate|].
    rewrite Hs. by destruct (CreateMergePatch K old new).
Qed.

Lemma C3_schemaless_ignores_live_witness :
  fst (createPatch Sample.K {| Sample.goType := Sample.Unstructured; Sample.body := "cron: 1" |}
         (Sample.deployment Sample.Unstructured "tab" "cron: 2")
         (initial Sample.K (Sample.custom "cron: 1")))
  = fst (createPatch Sample.K {| Sample.goType := Sample.Unstructured; Sample.body := "cron: 1" |}
           (Sample.deployment Sample.Unstructured "tab" "cron: 2")
           (initial Sample.K (Sample.custom "cron: 1, suspended")))
  /\ Some "cron: 2" = Some "cron: 2".
Proof.
  destruct (C3_schemaless_ignores_live Sample.K
              {| Sample.goType := Sample.Unstructured; Sample.body := "cron: 1" |}
              (Sample.deployment Sample.Unstructured "tab" "cron: 2")
              (initial Sample.K (Sample.custom "cron: 1"))
              (initial Sample.K (Sample.custom "cron: 1, suspended")))
    as [Hsame Hall].
  - vm_compute. reflexivity.
  - split.
    + apply Hall; vm_compute; reflexivity.
    + apply (Hsame (Some "cron: 2") MergePatchType (Some "cron: 2") MergePatchType);
        vm_compute; reflexivity.
Defined.




(** ** Unchanged resources *)








(** ** The example of the README *)

Example unchanged_release_prints_empty_patch :
  fst (RunE Sample.K tt "foo" "./foo" (initial Sample.K Sample.steady)) = Printed "[{}]".
Proof. vm_compute. reflexivity. Qed.

Example not_found_resource_is_left_out :
  fst (RunE Sample.K tt "foo" "./foo" (initial Sample.K Sample.failedUpgrade))
  = Printed "[replicas: 3]".
Proof. vm_compute. reflexivity. Qed.

(** * Further properties of the code *)

(** ** Capability negotiation *)

Section Discovery.
Context {K : Collaborators}.

Lemma getCapabilities_cached (s : State K) caps :
  c_Capabilities s = Some caps -> getCapabilities K s = (None, s).
Proof.
  intros H. unfold getCapabilities, bind, getCapabilitiesField. by rewrite H.
Qed.

Lemma drop_log {A} (l : list A) a k : drop (length l) ((l ++ [a]) ++ k) = a :: k.
Proof. by rewrite <- app_assoc, drop_app_length. Qed.

Lemma getCapabilities_added (s : State K) :
  added (getCapabilities K) s =
  match c_Capabilities s with
  | Some _ => []
  | None =>
      CallToDiscoveryClient ::
      match ToDiscoveryClient K with
      | inl _ => []
      | inr dc =>
          CallInvalidate :: CallServerVersion ::
          match ServerVersion K (cluster s) dc with
          | inl _ => []
          | inr _ =>
              CallGetVersionSet ::
              match snd (GetVersionSet K (cluster s) dc) with
              | Some err =>
                  if IsGroupDiscoveryFailedError K err then
                    [CallLog "WARNING: The Kubernetes server has an orphaned API service. Server reports: %s";
                     CallLog "WARNING: To fix this, kubectl delete apiservice <service-name>"]
                  else []
              | None => []
              end
          end
      end
  end.
Proof.
  unfold added, getCapabilities, getCapabilitiesField, setCapabilitiesField,
    runtime, call, bind, ret.
  destruct (c_Capabilities s); simpl; [by rewrite drop_all|].
  destruct (ToDiscoveryClient K) as [e|dc]; simpl; [by rewrite drop_app_length|].
  destruct (ServerVersion K (cluster s) dc) as [e|v]; simpl.
  { by rewrite <- !app_assoc, drop_app_length. }
  destruct (snd (GetVersionSet K (cluster s) dc)) as [e|]; simpl;
    [destruct (IsGroupDiscoveryFailedError K e); simpl|];
    by rewrite <- !app_assoc, drop_app_length.
Qed.

Lemma getCapabilities_sets (s : State K) :
  fst (getCapabilities K s) = None -> is_Some (c_Capabilities (snd (getCapabilities K s))).
Proof.
  unfold getCapabilities, getCapabilitiesField, setCapabilitiesField,
    runtime, call, bind, ret.
  destruct (c_Capabilities s) eqn:E; simpl; [by rewrite E|].
  destruct (ToDiscoveryClient K) as [e|dc]; simpl; [done|].
  destruct (ServerVersion K (cluster s) dc) as [e|v]; simpl; [done|].
  destruct (snd (GetVersionSet K (cluster s) dc)) as [e|]; simpl;
    [destruct (IsGroupDiscoveryFailedError K e); simpl|]; try done; by eexists.
Qed.

Lemma getCapabilities_keeps (s : State K) e :
  fst (getCapabilities K s) = Some e ->
  c_Capabilities s = None /\ c_Capabilities (snd (getCapabilities K s)) = None.
Proof.
  unfold getCapabilities, getCapabilitiesField, setCapabilitiesField,
    runtime, call, bind, ret.
  destruct (c_Capabilities s) eqn:E; simpl; [done|].
  destruct (ToDiscoveryClient K) as [e'|dc]; simpl; [done|].
  destruct (ServerVersion K (cluster s) dc) as [e'|v]; simpl; [done|].
  destruct (snd (GetVersionSet K (cluster s) dc)) as [e'|]; simpl;
    [destruct (IsGroupDiscoveryFailedError K e'); simpl|]; done.
Qed.

Lemma filter_added_bind (g : Call -> bool) {A B} (m : M K A) (f : A -> M K B) s :
  Logs noWrite m -> (forall a, Logs noWrite (f a)) ->
  List.filter g (added (bind m f) s)
  = (List.filter g (added m s) ++ List.filter g (added (f (fst (m s))) (snd (m s))))%list.
Proof.
  intros Hm Hf. rewrite (added_bind noWrite noWrite); [|done|done].
  apply List.filter_app.
Qed.

Lemma filter_Logs_nil (g : Call -> bool) {A} (m : M K A) s :
  Logs (fun c => g c = false) m -> List.filter g (added m s) = [].
Proof.
  intros H. apply (Logs_added _ _ s) in H.
  induction H as [|c l Hc _ IH]; [done|]. simpl. by rewrite Hc.
Qed.

Lemma getCapabilities_discovery (s : State K) :
  List.filter isDiscovery (added (getCapabilities K) s) `prefix_of` discoverySequence.
Proof.
  rewrite getCapabilities_added. unfold discoverySequence.
  destruct (c_Capabilities s); [by eexists|].
  destruct (ToDiscoveryClient K) as [e|dc]; [by eexists|].
  destruct (ServerVersion K (cluster s) dc) as [e|v]; [by eexists|].
  destruct (snd (GetVersionSet K (cluster s) dc)) as [e|];
    [destruct (IsGroupDiscoveryFailedError K e)|]; by exists [].
Qed.

Lemma renderResources_cached_discovery ch values (s : State K) :
  is_Some (c_Capabilities s) ->
  List.filter isDiscovery (added (renderResources K ch values) s) = [].
Proof.
  intros [caps Hcaps]. unfold renderResources.
  rewrite filter_added_bind; [|eauto with logs|intros; logs read_call].
  rewrite (getCapabilities_cached s caps Hcaps). simpl fst. simpl snd.
  assert (Hnil : added (getCapabilities K) s = []).
  { by rewrite getCapabilities_added, Hcaps. }
  rewrite Hnil. simpl.
  apply filter_Logs_nil. logs ltac:(reflexivity).
Qed.

End Discovery.

(** X1: once capabilities are negotiated they are reused: with the field set,
    [getCapabilities] makes no library call and leaves the state as it is; a
    call that returns nil leaves the field set, so the next call is free; a
    call that fails leaves the field unset, so a failure is not cached. *)
Theorem X1_capabilities_cached (K : Collaborators) (s : State K) :
  (forall caps, c_Capabilities s = Some caps -> getCapabilities K s = (None, s))
  /\ (fst (getCapabilities K s) = None ->
      is_Some (c_Capabilities (snd (getCapabilities K s)))
      /\ getCapabilities K (snd (getCapabilities K s)) = (None, snd (getCapabilities K s)))
  /\ (forall e, fst (getCapabilities K s) = Some e ->
        c_Capabilities (snd (getCapabilities K s)) = None).
Proof.
  split; [|split].
  - apply getCapabilities_cached.
  - intros H. pose proof (getCapabilities_sets s H) as [caps Hc].
    split; [by eexists|]. by apply (getCapabilities_cached _ caps).
  - intros e H. by apply (getCapabilities_keeps s e).
Qed.

Lemma X1_capabilities_cached_witness :
  is_Some (c_Capabilities (snd (getCapabilities Sample.K (initial Sample.K Sample.steady))))
  /\ getCapabilities Sample.K (snd (getCapabilities Sample.K (initial Sample.K Sample.steady)))
     = (None, snd (getCapabilities Sample.K (initial Sample.K Sample.steady))).
Proof.
  apply (X1_capabilities_cached Sample.K (initial Sample.K Sample.steady)).
  vm_compute. reflexivity.
Defined.

(** X2: when listing the API versions fails, [getCapabilities] goes on only
    for a group-discovery failure: it logs two warnings and stores the
    versions it was given with the server version; any other failure is
    returned wrapped and nothing is stored. *)
Theorem X2_orphaned_api_service (K : Collaborators) (s : State K) dc v apis e :
  c_Capabilities s = None ->
  ToDiscoveryClient K = inr dc ->
  ServerVersion K (cluster s) dc = inr v ->
  GetVersionSet K (cluster s) dc = (apis, Some e) ->
  (IsGroupDiscoveryFailedError K e = true ->
     fst (getCapabilities K s) = None
     /\ c_Capabilities (snd (getCapabilities K s))
        = Some (apis, {| KV_Version := GitVersion v; KV_Major := VI_Major v;
                         KV_Minor := VI_Minor v |})
     /\ List.filter (fun c => negb (isDiscovery c)) (added (getCapabilities K) s)
        = [CallLog "WARNING: The Kubernetes server has an orphaned API service. Server reports: %s";
           CallLog "WARNING: To fix this, kubectl delete apiservice <service-name>"])
  /\ (IsGroupDiscoveryFailedError K e = false ->
      fst (getCapabilities K s)
      = Some (errors_Wrap e "could not get apiVersions from Kubernetes")
      /\ c_Capabilities (snd (getCapabilities K s)) = None).
Proof.
  intros Hc Hdc Hv Hg. split; intros He.
  - split; [|split].
    + unfold getCapabilities, getCapabilitiesField, setCapabilitiesField,
        runtime, call, bind, ret.
      rewrite Hc, Hdc. simpl. rewrite Hv. simpl. rewrite Hg. simpl. by rewrite He.
    + unfold getCapabilities, getCapabilitiesField, setCapabilitiesField,
        runtime, call, bind, ret.
      rewrite Hc, Hdc. simpl. rewrite Hv. simpl. rewrite Hg. simpl. by rewrite He.
    + rewrite getCapabilities_added, Hc, Hdc, Hv, Hg. simpl. by rewrite He.
  - unfold getCapabilities, getCapabilitiesField, setCapabilitiesField,
      runtime, call, bind, ret.
    rewrite Hc, Hdc. simpl. rewrite Hv. simpl. rewrite Hg. simpl. by rewrite He.
Qed.

Lemma X2_orphaned_api_service_witness :
  fst (getCapabilities (Faulty.K Faulty.orphaned)
         (initial (Faulty.K Faulty.orphaned) Sample.steady)) = None
  /\ c_Capabilities (snd (getCapabilities (Faulty.K Faulty.orphaned)
                            (initial (Faulty.K Faulty.orphaned) Sample.steady)))
     = Some (tt, {| KV_Version := "v1.18.8"; KV_Major := "1"; KV_Minor := "18" |})
  /\ List.filter (fun c => negb (isDiscovery c))
        (added (getCapabilities (Faulty.K Faulty.orphaned))
               (initial (Faulty.K Faulty.orphaned) Sample.steady))
     = [CallLog "WARNING: The Kubernetes server has an orphaned API service. Server reports: %s";
        CallLog "WARNING: To fix this, kubectl delete apiservice <service-name>"].
Proof.
  apply (X2_orphaned_api_service (Faulty.K Faulty.orphaned)
           (initial (Faulty.K Faulty.orphaned) Sample.steady) tt
           {| GitVersion := "v1.18.8"; VI_Major := "1"; VI_Minor := "18" |} tt
           (External "group discovery failed")); reflexivity.
Defined.

Section DiscoveryOnce.
Context {K : Collaborators}.

Ltac filter_step :=
  rewrite filter_added_bind; [|logs read_call|intros; logs read_call].

Lemma prepareUpgrade_discovery name chart vals (s : State K) :
  List.filter isDiscovery (added (prepareUpgrade K name chart vals) s)
  `prefix_of` discoverySequence.
Proof.
  unfold prepareUpgrade. destruct chart as [chart|];
    [|rewrite added_ret; by eexists].
  filter_step. rewrite added_runtime. simpl List.filter.
  destruct (Releases_Last K (cluster s) name) as [err|last].
  { destruct (Is_ErrReleaseNotFound K err); rewrite added_ret; by eexists. }
  filter_step. rewrite (filter_Logs_nil _ (currentReleaseFor K name last));
    [|unfold currentReleaseFor; logs ltac:(reflexivity)].
  destruct (fst (currentReleaseFor K name last _)) as [err|cur];
    [rewrite added_ret; by eexists|].
  filter_step. rewrite added_call. simpl List.filter.
  destruct (ProcessDependencies K chart vals) as [err|chart'];
    [rewrite added_ret; by eexists|].
  filter_step.
  match goal with |- context [getCapabilities K ?st] => set (s3 := st) end.
  pose proof (getCapabilities_discovery s3) as Hpre.
  pose proof (getCapabilities_sets s3) as Hset.
  destruct (fst (getCapabilities K s3)) as [err|].
  { rewrite added_ret. simpl. by rewrite app_nil_r. }
  specialize (Hset eq_refl).
  set (s4 := snd (getCapabilities K s3)) in *.
  filter_step. rewrite (filter_Logs_nil _ (getCapabilitiesField K));
    [|intros st; split; [done|]; exists []; by rewrite app_nil_r].
  filter_step. rewrite added_call. simpl List.filter.
  destruct (ToRenderValues K chart' vals _ _) as [err|valuesToRender].
  { rewrite added_ret. simpl. by rewrite app_nil_r. }
  filter_step. rewrite renderResources_cached_discovery; [|exact Hset].
  destruct (snd (fst (renderResources K chart' valuesToRender _)));
    rewrite added_ret; simpl; by rewrite app_nil_r.
Qed.

End DiscoveryOnce.

(** X3: whatever the state [prepareUpgrade] starts from and however it ends,
    the discovery calls it makes are an initial part of one negotiation
    (discovery client, cache invalidation, server version, API versions):
    capabilities are negotiated at most once, although both [prepareUpgrade]
    and [renderResources] call [getCapabilities]. *)
Theorem X3_discovery_at_most_once (K : Collaborators) (name : string)
    (chart : option (Chart K)) (vals : Values K) (s : State K) :
  List.filter isDiscovery (added (prepareUpgrade K name chart vals) s)
  `prefix_of` discoverySequence.
Proof. apply prepareUpgrade_discovery. Qed.

(** ** Rendering *)

Lemma string_length_app (a b : string) :
  String.length (a ++ b) = (String.length a + String.length b)%nat.
Proof.
  induction a as [|c a IH]; [done|].
  change (String c a ++ b) with (String c (a ++ b)). simpl. by rewrite IH.
Qed.

Lemma string_app_nil_r (a : string) : a ++ "" = a.
Proof.
  induction a as [|c a IH]; [done|].
  change (String c a ++ "") with (String c (a ++ "")). by rewrite IH.
Qed.

Lemma string_app_assoc (a b c : string) : (a ++ b) ++ c = a ++ b ++ c.
Proof.
  induction a as [|x a IH]; [done|].
  change ((String x a ++ b) ++ c) with (String x ((a ++ b) ++ c)). by rewrite IH.
Qed.

Lemma substring_all (s : string) : String.substring 0 (String.length s) s = s.
Proof. induction s as [|c s IH]; [done|]. cbn. by rewrite IH. Qed.

Lemma substring_skip (pre s : string) n :
  String.substring (String.length pre) n (pre ++ s) = String.substring 0 n s.
Proof.
  induction pre as [|c pre IH]; [done|].
  change (String c pre ++ s) with (String c (pre ++ s)). simpl. exact IH.
Qed.

Lemma substring_split (s : string) : forall k, (k <= String.length s)%nat ->
  s = String.substring 0 k s ++ String.substring k (String.length s - k) s.
Proof.
  induction s as [|c s IH]; intros k Hk.
  - destruct k; [done|]. simpl in Hk. lia.
  - destruct k as [|k].
    + cbn. by rewrite substring_all.
    + cbn in Hk. cbn.
      change (String c (String.substring 0 k s) ++ ?x)
        with (String c (String.substring 0 k s ++ x)).
      f_equal. apply IH. lia.
Qed.

Lemma HasSuffix_app (pre suffix : string) : HasSuffix (pre ++ suffix) suffix = true.
Proof.
  unfold HasSuffix. rewrite string_length_app.
  apply andb_true_iff. split; [apply Nat.leb_le; lia|].
  replace (String.length pre + String.length suffix - String.length suffix)%nat
    with (String.length pre) by lia.
  by rewrite substring_skip, substring_all, String.eqb_refl.
Qed.

Lemma HasSuffix_inv (s suffix : string) :
  HasSuffix s suffix = true -> exists pre, s = pre ++ suffix.
Proof.
  unfold HasSuffix. intros [Hle Heq]%andb_true_iff.
  apply Nat.leb_le in Hle. apply String.eqb_eq in Heq.
  exists (String.substring 0 (String.length s - String.length suffix) s).
  rewrite <- Heq at 2.
  rewrite (substring_split s (String.length s - String.length suffix)) at 1 by lia.
  do 2 f_equal. lia.
Qed.

(** X4: of the rendered files, exactly those whose name ends in [NOTES.txt]
    are dropped before sorting; every other file is kept with its content. *)
Theorem X4_notes_stripped (files : gmap string string) :
  (forall pre, stripNotes files !! (pre ++ "NOTES.txt") = None)
  /\ (forall name, (forall pre, name <> pre ++ "NOTES.txt") ->
        stripNotes files !! name = files !! name).
Proof.
  unfold stripNotes. split.
  - intros pre. apply map_lookup_filter_None. right. intros v _. simpl.
    by rewrite HasSuffix_app.
  - intros name Hno. destruct (files !! name) as [v|] eqn:E.
    + apply map_lookup_filter_Some. split; [done|]. simpl.
      destruct (HasSuffix name "NOTES.txt") eqn:Hs; [|done].
      apply HasSuffix_inv in Hs. destruct Hs as [pre ->]. by destruct (Hno pre).
    + apply map_lookup_filter_None. by left.
Qed.

Lemma X4_notes_stripped_witness :
  stripNotes {[ "foo/templates/deployment.yaml" := "kind: Deployment";
                "foo/templates/NOTES.txt" := "enjoy" ]} !! "foo/templates/deployment.yaml"
  = ({[ "foo/templates/deployment.yaml" := "kind: Deployment";
        "foo/templates/NOTES.txt" := "enjoy" ]} : gmap string string)
      !! "foo/templates/deployment.yaml".
Proof.
  apply (X4_notes_stripped {[ "foo/templates/deployment.yaml" := "kind: Deployment";
                              "foo/templates/NOTES.txt" := "enjoy" ]}).
  intros pre H.
  assert (Hs : HasSuffix "foo/templates/deployment.yaml" "NOTES.txt" = true)
    by (rewrite H; apply HasSuffix_app).
  vm_compute in Hs. discriminate Hs.
Defined.

Lemma formatManifests_from (manifests : list ManifestFile) : forall b,
  fold_left (fun b m => b ++ "---" ++ newline ++ "# Source: " ++ Manifest_Name m ++ newline
                          ++ Content m ++ newline) manifests b
  = b ++ formatManifests manifests.
Proof.
  unfold formatManifests.
  induction manifests as [|m ms IH]; intros b; simpl.
  - by rewrite string_app_nil_r.
  - rewrite IH. rewrite (IH ("" ++ _)). by rewrite string_app_assoc.
Qed.

Section Rendering.
Context {K : Collaborators}.

Lemma renderResources_success ch values (s : State K) out :
  fst (renderResources K ch values s) = (out, None) ->
  exists caps rest files manifests,
    c_Capabilities (snd (getCapabilities K s)) = Some caps
    /\ ToRESTConfig K = inr rest
    /\ RenderWithClient K (cluster s) ch values rest = inr files
    /\ SortManifests K (stripNotes files) (fst caps) = inr manifests
    /\ out = formatManifests manifests.
Proof.
  unfold renderResources. rewrite bind_run.
  pose proof (Logs_cluster quiet _ s getCapabilities_quiet) as Hc.
  destruct (getCapabilities K s) as [e s1]. simpl in *.
  destruct e; [discriminate|]. rewrite bind_run. simpl.
  destruct (c_Capabilities s1) as [caps|] eqn:Ecaps; [|discriminate].
  destruct (negb _ && negb _); [discriminate|].
  rewrite bind_run. destruct (ToRESTConfig K) as [e|rest] eqn:Erest; [discriminate|].
  rewrite bind_run. simpl. rewrite Hc.
  destruct (RenderWithClient K (cluster s) ch values rest) as [e|files] eqn:Efiles;
    [discriminate|].
  fold (stripNotes files).
  destruct (SortManifests K (stripNotes files) (fst caps)) as [e|manifests] eqn:Esort;
    [discriminate|].
  intros H. exists caps, rest, files, manifests. repeat split; try done.
  unfold ret in H. simpl in H. by inversion H.
Qed.

End Rendering.

(** X5: when [renderResources] succeeds, the files it sorts are the rendered
    files without the notes, sorted against the negotiated API versions, and
    the buffer holds one block per sorted manifest, in that order, each a
    separator line, a [# Source:] line with the manifest's name, and its
    content. *)
Theorem X5_render_output (K : Collaborators) (ch : Chart K) (values : Values K)
    (s : State K) (out : string) :
  fst (renderResources K ch values s) = (out, None) ->
  (exists caps rest files manifests,
     c_Capabilities (snd (getCapabilities K s)) = Some caps
     /\ ToRESTConfig K = inr rest
     /\ RenderWithClient K (cluster s) ch values rest = inr files
     /\ SortManifests K (stripNotes files) (fst caps) = inr manifests
     /\ out = formatManifests manifests)
  /\ formatManifests [] = ""
  /\ (forall m ms, formatManifests (m :: ms) = manifestEntry m ++ formatManifests ms).
Proof.
  intros H. split; [by apply renderResources_success|]. split; [done|].
  intros m ms. unfold formatManifests at 1. simpl. by rewrite formatManifests_from.
Qed.

Lemma X5_render_output_witness :
  exists caps rest files manifests,
    c_Capabilities (snd (getCapabilities Sample.K (initial Sample.K Sample.steady))) = Some caps
    /\ ToRESTConfig Sample.K = inr rest
    /\ RenderWithClient Sample.K Sample.steady tt tt rest = inr files
    /\ SortManifests Sample.K (stripNotes files) (fst caps) = inr manifests
    /\ fst (fst (renderResources Sample.K tt tt (initial Sample.K Sample.steady)))
       = formatManifests manifests.
Proof.
  apply (X5_render_output Sample.K tt tt (initial Sample.K Sample.steady)
           (fst (fst (renderResources Sample.K tt tt (initial Sample.K Sample.steady))))).
  vm_compute. reflexivity.
Defined.

(** X6: a chart that declares a platform version the negotiated server
    version does not satisfy is not rendered: [renderResources] returns the
    incompatibility error with an empty buffer right after the negotiation,
    without asking for a REST configuration or rendering a template. *)
Theorem X6_incompatible_platform (K : Collaborators) (ch : Chart K) (values : Values K)
    (s : State K) (caps : Capabilities K) :
  fst (getCapabilities K s) = None ->
  c_Capabilities (snd (getCapabilities K s)) = Some caps ->
  Metadata_KubeVersion K ch <> "" ->
  IsCompatibleRange K (Metadata_KubeVersion K ch) (KubeVersion_String (snd caps)) = false ->
  renderResources K ch values s
  = (("", Some (Errorf "chart requires kubeVersion: %s which is incompatible with Kubernetes %s"
                       [Metadata_KubeVersion K ch; KubeVersion_String (snd caps)])),
     snd (getCapabilities K s)).
Proof.
  intros Hok Hcaps Hne Hbad. unfold renderResources. rewrite bind_run, Hok, bind_run.
  simpl. rewrite Hcaps, Hbad.
  destruct (String.eqb_spec (Metadata_KubeVersion K ch) ""); [done|]. reflexivity.
Qed.

Lemma X6_incompatible_platform_witness :
  renderResources (Faulty.K Faulty.tooNew) tt tt
    (initial (Faulty.K Faulty.tooNew) Sample.steady)
  = (("", Some (Errorf "chart requires kubeVersion: %s which is incompatible with Kubernetes %s"
                       [">= 1.99.0"; "v1.18.8"])),
     snd (getCapabilities (Faulty.K Faulty.tooNew)
            (initial (Faulty.K Faulty.tooNew) Sample.steady))).
Proof.
  apply (X6_incompatible_platform (Faulty.K Faulty.tooNew) tt tt
           (initial (Faulty.K Faulty.tooNew) Sample.steady)
           (tt, {| KV_Version := "v1.18.8"; KV_Major := "1"; KV_Minor := "18" |}));
    [reflexivity | reflexivity | discriminate | reflexivity].
Defined.

(** ** Failures of [prepareUpgrade] *)

Section UpgradeFailures.
Context {K : Collaborators}.

Lemma prepareUpgrade_all_or_nothing name chart vals (s : State K) :
  snd (fst (prepareUpgrade K name chart vals s)) = None
  \/ fst (fst (prepareUpgrade K name chart vals s)) = ("", "").
Proof.
  unfold prepareUpgrade. destruct chart as [chart|]; [|by right].
  repeat first
    [ rewrite bind_run
    | match goal with
      | |- context [match ?x with _ => _ end] => destruct x
      end ];
    simpl; auto.
Qed.

Lemma prepareUpgrade_last_error name chart vals (s : State K) err :
  Releases_Last K (cluster s) name = inl err ->
  fst (prepareUpgrade K name (Some chart) vals s)
  = ("", "", Some (if Is_ErrReleaseNotFound K err then NewErrNoDeployedReleases name else err))
  /\ added (prepareUpgrade K name (Some chart) vals) s = [CallLast name].
Proof.
  intros HL. unfold prepareUpgrade.
  rewrite (added_bind noWrite noWrite); [|logs read_call|logs read_call].
  rewrite bind_run, added_runtime.
  change (fst (runtime K (CallLast name) (fun cl => Releases_Last K cl name) s))
    with (Releases_Last K (cluster s) name).
  rewrite HL. destruct (Is_ErrReleaseNotFound K err); by rewrite added_ret.
Qed.

End UpgradeFailures.

(** X7: without a chart [prepareUpgrade] fails at once, with no library call.
    When the lookup of the most recent release fails, nothing else is called:
    a release that was not found is reported as "no deployed releases" for
    that name, any other lookup error is returned as it is. *)
Theorem X7_no_release (K : Collaborators) (name : string) (vals : Values K) (s : State K) :
  prepareUpgrade K name None vals s = (("", "", Some (errors_New "missing chart")), s)
  /\ (forall chart err,
        Releases_Last K (cluster s) name = inl err ->
        fst (prepareUpgrade K name (Some chart) vals s)
        = ("", "", Some (if Is_ErrReleaseNotFound K err
                         then NewErrNoDeployedReleases name else err))
        /\ added (prepareUpgrade K name (Some chart) vals) s = [CallLast name]).
Proof.
  split; [reflexivity|]. intros chart err. apply prepareUpgrade_last_error.
Qed.

Lemma X7_no_release_witness :
  fst (prepareUpgrade Sample.K "foo" (Some tt) tt (initial Sample.K Faulty.noRelease))
  = ("", "", Some (NewErrNoDeployedReleases "foo"))
  /\ added (prepareUpgrade Sample.K "foo" (Some tt) tt) (initial Sample.K Faulty.noRelease)
     = [CallLast "foo"].
Proof.
  apply (proj2 (X7_no_release Sample.K "foo" tt (initial Sample.K Faulty.noRelease)) tt
           (External "release: not found")).
  reflexivity.
Defined.

(** X8: [prepareUpgrade] returns manifests only together with a nil error:
    whenever it returns an error, both manifests are the empty string. *)
Theorem X8_no_partial_manifests (K : Collaborators) (name : string)
    (chart : option (Chart K)) (vals : Values K) (s : State K) (err : error) :
  snd (fst (prepareUpgrade K name chart vals s)) = Some err ->
  fst (fst (prepareUpgrade K name chart vals s)) = ("", "").
Proof.
  intros H. destruct (prepareUpgrade_all_or_nothing name chart vals s) as [Hn|He]; [|done].
  rewrite Hn in H. discriminate.
Qed.

Lemma X8_no_partial_manifests_witness :
  fst (fst (prepareUpgrade (Faulty.K Faulty.tooNew) "foo" (Some tt) tt
              (initial (Faulty.K Faulty.tooNew) Sample.steady))) = ("", "").
Proof.
  apply (X8_no_partial_manifests (Faulty.K Faulty.tooNew) "foo" (Some tt) tt
           (initial (Faulty.K Faulty.tooNew) Sample.steady)
           (Errorf "chart requires kubeVersion: %s which is incompatible with Kubernetes %s"
                   [">= 1.99.0"; "v1.18.8"])).
  vm_compute. reflexivity.
Defined.

(** ** The traversal of the target resources *)

Section Traversal.
Context {K : Collaborators}.
Variable original : list (Info (Object K)).

Lemma visitFn_error_keeps info patches (s : State K) e :
  snd (fst (visitFn K original info None patches s)) = Some e ->
  fst (fst (visitFn K original info None patches s)) = patches.
Proof.
  rewrite visitFn_fst.
  destruct (existsLive K (cluster s) info); [|done].
  destruct (ResourceList_Get K original info) as [o|]; [|done].
  destruct (fst (createPatch K (InfoObject o) info (initial K (cluster s))))
    as [[patch kind] err].
  by destruct err.
Qed.

Lemma Visit_stops pre info post patches (s s1 : State K) p1 e :
  Visit K pre (visitFn K original) patches s = ((p1, None), s1) ->
  snd (fst (visitFn K original info None p1 s1)) = Some e ->
  Visit K (pre ++ info :: post)%list (visitFn K original) patches s
  = ((p1, Some e), snd (visitFn K original info None p1 s1)).
Proof.
  intros Hpre He. rewrite (Visit_app _ _ _ _ _ _ _ Hpre), Visit_cons, He.
  by rewrite (visitFn_error_keeps _ _ _ _ He).
Qed.

Lemma added_Visit_cons info rest patches (s : State K) :
  added (Visit K (info :: rest) (visitFn K original) patches) s
  = (added (visitFn K original info None patches) s
     ++ match snd (fst (visitFn K original info None patches s)) with
        | Some _ => []
        | None => added (Visit K rest (visitFn K original)
                           (fst (fst (visitFn K original info None patches s))))
                        (snd (visitFn K original info None patches s))
        end)%list.
Proof.
  change (Visit K (info :: rest) (visitFn K original) patches)
    with (bind (visitFn K original info None patches)
               (fun x => match snd x with
                         | Some err => ret (fst x, Some err)
                         | None => Visit K rest (visitFn K original) (fst x)
                         end)).
  rewrite (added_bind quiet quiet); [|eauto with logs|].
  - destruct (snd (fst (visitFn K original info None patches s))); [|done].
    by rewrite added_ret.
  - destruct (snd (fst (visitFn K original info None patches s)));
      [apply Logs_ret|apply Visit_quiet].
Qed.

Lemma Visit_none_live target : forall patches (s : State K),
  Forall (fun info => existsLive K (cluster s) info = false) target ->
  fst (Visit K target (visitFn K original) patches s) = (patches, None)
  /\ added (Visit K target (visitFn K original) patches) s = map getCall target.
Proof.
  induction target as [|info rest IH]; intros patches s HF.
  - split; [done|]. apply added_ret.
  - inversion HF as [|? ? Hlive Hrest]; subst.
    pose proof (visitFn_fst original info patches s) as Hv. rewrite Hlive in Hv.
    pose proof (Logs_cluster quiet _ s (visitFn_quiet original info None patches)) as Hc.
    rewrite added_Visit_cons, Visit_cons, visitFn_added.
    unfold reachesMerge. rewrite Hlive. simpl andb. cbv iota zeta.
    destruct (visitFn K original info None patches s) as [[p1 e1] s1].
    simpl in Hv, Hc. inversion Hv; subst p1 e1. simpl snd. simpl fst. cbv iota.
    rewrite <- Hc in Hrest. destruct (IH patches s1 Hrest) as [IH1 IH2].
    split; [exact IH1|]. rewrite IH2. reflexivity.
Qed.

Lemma visitFn_lookup_error info patches (s : State K) o err :
  snd (lookupLive K (cluster s) info) = Some err ->
  IsNotFound K err = false ->
  ResourceList_Get K original info = Some o ->
  marshals K (InfoObject o) = true ->
  marshals K (InfoObject info) = true ->
  fst (visitFn K original info None patches s)
  = (patches, Some (Wrapf err "unable to get data for current object %s/%s"
                          [Namespace info; Name info])).
Proof.
  intros Herr Hnf Ho Hm1 Hm2. rewrite visitFn_fst.
  unfold existsLive, lookupLive, marshals in *. rewrite Herr. simpl. rewrite Hnf, Ho. simpl.
  unfold createPatch, Get, runtime, call, bind, ret.
  destruct (json_Marshal K (Some (InfoObject o))); [discriminate|].
  destruct (json_Marshal K (Some (InfoObject info))); [discriminate|].
  simpl. rewrite Herr. simpl. by rewrite Hnf.
Qed.

End Traversal.

(** X9: the traversal stops at the first resource whose visit fails: the
    error is returned with the patches collected before it, nothing is added
    for the failing resource, and the resources after it are not visited
    (the result and the state do not depend on them). *)
Theorem X9_first_error_stops (K : Collaborators) (original pre : list (Info (Object K)))
    (info : Info (Object K)) (patches : list string) (s s1 : State K) p1 e :
  Visit K pre (visitFn K original) patches s = ((p1, None), s1) ->
  snd (fst (visitFn K original info None p1 s1)) = Some e ->
  forall post,
    Visit K (pre ++ info :: post)%list (visitFn K original) patches s
    = ((p1, Some e), snd (visitFn K original info None p1 s1)).
Proof. intros Hpre He post. by apply Visit_stops. Qed.

Lemma X9_first_error_stops_witness :
  Visit Sample.K
    ([Sample.deployment Sample.Typed "web" "replicas: 1"]
     ++ Sample.deployment Sample.Typed "cache" "replicas: 2"
        :: [Sample.deployment Sample.Typed "job" "x"])%list
    (visitFn Sample.K (Sample.originalInfos Sample.adopted)) []
    (initial Sample.K Sample.adopted)
  = ((["{}"], Some (Errorf "could not find %q" ["cache"])),
     snd (visitFn Sample.K (Sample.originalInfos Sample.adopted)
            (Sample.deployment Sample.Typed "cache" "replicas: 2") None ["{}"]
            (snd (Visit Sample.K [Sample.deployment Sample.Typed "web" "replicas: 1"]
                    (visitFn Sample.K (Sample.originalInfos Sample.adopted)) []
                    (initial Sample.K Sample.adopted))))).
Proof.
  apply (X9_first_error_stops Sample.K (Sample.originalInfos Sample.adopted)
           [Sample.deployment Sample.Typed "web" "replicas: 1"]
           (Sample.deployment Sample.Typed "cache" "replicas: 2") []
           (initial Sample.K Sample.adopted)).
  - vm_compute. reflexivity.
  - vm_compute. reflexivity.
Defined.

(** X10: when no target resource is live, the traversal succeeds, adds no
    patch, and makes exactly one lookup per target resource, in the order of
    the target manifest; the patch set printed for it is the empty pair of
    brackets. *)
Theorem X10_nothing_live (K : Collaborators) (original target : list (Info (Object K)))
    (patches : list string) (s : State K) :
  Forall (fun info => existsLive K (cluster s) info = false) target ->
  fst (Visit K target (visitFn K original) patches s) = (patches, None)
  /\ added (Visit K target (visitFn K original) patches) s = map getCall target
  /\ formatPatchset [] = "[]".
Proof.
  intros HF. destruct (Visit_none_live original target patches s HF) as [H1 H2].
  by repeat split.
Qed.

Lemma X10_nothing_live_witness :
  fst (Visit Sample.K (Sample.targetInfos Sample.adopted)
         (visitFn Sample.K (Sample.originalInfos Sample.adopted)) []
         (initial Sample.K Faulty.noRelease)) = ([], None)
  /\ added (Visit Sample.K (Sample.targetInfos Sample.adopted)
              (visitFn Sample.K (Sample.originalInfos Sample.adopted)) [])
           (initial Sample.K Faulty.noRelease)
     = map getCall (Sample.targetInfos Sample.adopted)
  /\ formatPatchset [] = "[]".
Proof.
  apply (X10_nothing_live Sample.K (Sample.originalInfos Sample.adopted)
           (Sample.targetInfos Sample.adopted) [] (initial Sample.K Faulty.noRelease)).
  repeat constructor.
Defined.

(** X11: a lookup that fails with anything but NotFound is fatal for a
    resource that has an original and whose declared bodies serialize: the
    visit returns the lookup error wrapped with the resource's namespace and
    name, and adds no patch. *)
Theorem X11_lookup_error_is_fatal (K : Collaborators) (original : list (Info (Object K)))
    (info o : Info (Object K)) (patches : list string) (s : State K) (err : error) :
  snd (lookupLive K (cluster s) info) = Some err ->
  IsNotFound K err = false ->
  ResourceList_Get K original info = Some o ->
  marshals K (InfoObject o) = true ->
  marshals K (InfoObject info) = true ->
  fst (visitFn K original info None patches s)
  = (patches, Some (Wrapf err "unable to get data for current object %s/%s"
                          [Namespace info; Name info])).
Proof. apply visitFn_lookup_error. Qed.

Lemma X11_lookup_error_is_fatal_witness :
  fst (visitFn (Faulty.K Faulty.refused) (Sample.originalInfos Sample.steady)
         (Sample.deployment Sample.Typed "web" "replicas: 1") None []
         (initial (Faulty.K Faulty.refused) Sample.steady))
  = ([], Some (Wrapf Faulty.forbidden "unable to get data for current object %s/%s"
                     ["default"; "web"])).
Proof.
  apply (X11_lookup_error_is_fatal (Faulty.K Faulty.refused)
           (Sample.originalInfos Sample.steady)
           (Sample.deployment Sample.Typed "web" "replicas: 1")
           (Sample.deployment Sample.Typed "web" "replicas: 1") []
           (initial (Faulty.K Faulty.refused) Sample.steady) Faulty.forbidden);
    reflexivity.
Defined.

(** ** The command as a whole *)

Section Command.
Context {K : Collaborators}.

Lemma createPatchset_unreachable name ch vals (s : State K) :
  (forall e, Configuration_Init K = Some e ->
     fst (createPatchset K name ch vals s) = LogFatal e
     /\ added (createPatchset K name ch vals) s = [CallInit])
  /\ (forall e, Configuration_Init K = None ->
        KubeClient_IsReachable K (cluster s) = Some e ->
        fst (createPatchset K name ch vals s) = Returns ("", Some e)
        /\ added (createPatchset K name ch vals) s = [CallInit; CallIsReachable]).
Proof.
  split; intros e Hinit.
  - unfold createPatchset. rewrite bind_run.
    rewrite (added_bind noWrite noWrite); [|logs read_call|logs read_call].
    rewrite added_call, Hinit. by rewrite added_ret.
  - intros Hreach. unfold createPatchset. rewrite bind_run.
    rewrite (added_bind noWrite noWrite); [|logs read_call|logs read_call].
    rewrite added_call, Hinit. rewrite bind_run.
    rewrite (added_bind noWrite noWrite); [|logs read_call|logs read_call].
    rewrite added_runtime.
    change (fst (runtime K CallIsReachable (KubeClient_IsReachable K) (snd (call K CallInit s))))
      with (KubeClient_IsReachable K (cluster s)).
    rewrite Hreach. by rewrite added_ret.
Qed.

Lemma RunE_early_exit valueOpts name chartPath (s : State K) :
  validateReleaseName K name = None ->
  (forall e, MergeValues K valueOpts = inl e ->
     fst (RunE K valueOpts name chartPath s) = Exited e
     /\ added (RunE K valueOpts name chartPath) s = [CallMergeValues])
  /\ (forall vals e, MergeValues K valueOpts = inr vals ->
        loader_Load K chartPath = inl e ->
        fst (RunE K valueOpts name chartPath s) = Exited e
        /\ added (RunE K valueOpts name chartPath) s = [CallMergeValues; CallLoad chartPath]).
Proof.
  intros Hv. unfold RunE. rewrite Hv. split.
  - intros e Hm. rewrite bind_run.
    rewrite (added_bind noWrite noWrite); [|logs read_call|logs read_call].
    rewrite added_call, Hm. by rewrite added_ret.
  - intros vals e Hm Hl. rewrite bind_run.
    rewrite (added_bind noWrite noWrite); [|logs read_call|logs read_call].
    rewrite added_call, Hm. rewrite bind_run.
    rewrite (added_bind noWrite noWrite); [|logs read_call|logs read_call].
    rewrite added_call, Hl. by rewrite added_ret.
Qed.

End Command.

(** X12: a run that cannot merge the values or load the chart exits with that
    error before the runtime is touched: values are merged first, the chart is
    loaded second, and nothing else has been called. *)
Theorem X12_local_failures (K : Collaborators) (valueOpts : ValueOptions K)
    (name chartPath : string) (s : State K) :
  validateReleaseName K name = None ->
  (forall e, MergeValues K valueOpts = inl e ->
     fst (RunE K valueOpts name chartPath s) = Exited e
     /\ added (RunE K valueOpts name chartPath) s = [CallMergeValues])
  /\ (forall vals e, MergeValues K valueOpts = inr vals ->
        loader_Load K chartPath = inl e ->
        fst (RunE K valueOpts name chartPath s) = Exited e
        /\ added (RunE K valueOpts name chartPath) s = [CallMergeValues; CallLoad chartPath]).
Proof. apply RunE_early_exit. Qed.

Lemma X12_local_failures_witness :
  fst (RunE (Faulty.K Faulty.badChart) tt "foo" "./foo"
         (initial (Faulty.K Faulty.badChart) Sample.steady))
  = Exited (External "Chart.yaml file is missing")
  /\ added (RunE (Faulty.K Faulty.badChart) tt "foo" "./foo")
           (initial (Faulty.K Faulty.badChart) Sample.steady)
     = [CallMergeValues; CallLoad "./foo"].
Proof.
  apply (proj2 (X12_local_failures (Faulty.K Faulty.badChart) tt "foo" "./foo"
                  (initial (Faulty.K Faulty.badChart) Sample.steady) eq_refl) tt);
    reflexivity.
Defined.

(** X13: what the command prints is complete.  If a patch set is printed, the
    release name was valid, values and chart were read, the original and the
    target resources were built from the two manifests [prepareUpgrade]
    returned, every target resource that is live was looked up without error
    and has an original and a patch, and the line printed is the bracketed,
    comma-joined list of the patches of exactly the live target resources, in
    the order of the target manifest.  Conversely, when all of this holds
    that line is printed. *)
Theorem X13_printed_is_complete (K : Collaborators) (valueOpts : ValueOptions K)
    (name chartPath : string) (s : State K) :
  (forall out,
     fst (RunE K valueOpts name chartPath s) = Printed out ->
     validateReleaseName K name = None
     /\ exists vals ch om tm original target,
          MergeValues K valueOpts = inr vals
          /\ loader_Load K chartPath = inr ch
          /\ fst (prepareUpgrade K name (Some ch) vals (checked K (loaded K chartPath s)))
             = (om, tm, None)
          /\ KubeClient_Build K (cluster s) om false = inr original
          /\ KubeClient_Build K (cluster s) tm false = inr target
          /\ out = formatPatchset (map (patchFor K (cluster s) original)
                                       (List.filter (existsLive K (cluster s)) target))
          /\ Forall (fun info => existsLive K (cluster s) info = true ->
                       patchable K (cluster s) original info = true
                       /\ snd (lookupLive K (cluster s) info) = None) target)
  /\ (forall vals ch om tm original target,
        validateReleaseName K name = None ->
        MergeValues K valueOpts = inr vals ->
        loader_Load K chartPath = inr ch ->
        Configuration_Init K = None ->
        KubeClient_IsReachable K (cluster s) = None ->
        fst (prepareUpgrade K name (Some ch) vals (checked K (loaded K chartPath s)))
        = (om, tm, None) ->
        KubeClient_Build K (cluster s) om false = inr original ->
        KubeClient_Build K (cluster s) tm false = inr target ->
        Forall (fun info => existsLive K (cluster s) info = true ->
                            patchable K (cluster s) original info = true) target ->
        fst (RunE K valueOpts name chartPath s)
        = Printed (formatPatchset (map (patchFor K (cluster s) original)
                                       (List.filter (existsLive K (cluster s)) target)))).
Proof.
  split.
  - intros out H. unfold RunE in H.
    destruct (validateReleaseName K name); [discriminate|]. split; [done|].
    rewrite bind_run in H. destruct (MergeValues K valueOpts) as [e|vals] eqn:Ev;
      [discriminate|].
    rewrite bind_run in H. destruct (loader_Load K chartPath) as [e|ch] eqn:El;
      [discriminate|].
    rewrite bind_run in H.
    change (snd (call K (CallLoad chartPath) (snd (call K CallMergeValues s))))
      with (loaded K chartPath s) in H.
    destruct (fst (createPatchset K name (Some ch) vals (loaded K chartPath s)))
      as [[p [e|]]|e] eqn:Ec; simpl in H; try discriminate.
    inversion H; subst p.
    destruct (createPatchset_inv name (Some ch) vals (loaded K chartPath s) out Ec)
      as (Hinit & Hreach & om & tm & original & target & Hprep & Ho & Ht).
    change (cluster (loaded K chartPath s)) with (cluster s) in *.
    exists vals, ch, om, tm, original, target.
    destruct (createPatchset_patches name (Some ch) vals (loaded K chartPath s)
                om tm original target Hinit Hreach Hprep Ho Ht) as [_ Hback].
    destruct (Hback out Ec) as [Hout HF]. by repeat split.
  - intros vals ch om tm original target Hv Hm Hl Hinit Hreach Hprep Ho Ht HF.
    unfold RunE. rewrite Hv, bind_run, Hm, bind_run, Hl, bind_run.
    change (snd (call K (CallLoad chartPath) (snd (call K CallMergeValues s))))
      with (loaded K chartPath s).
    destruct (createPatchset_patches name (Some ch) vals (loaded K chartPath s)
                om tm original target Hinit Hreach Hprep Ho Ht) as [Hfwd _].
    change (cluster (loaded K chartPath s)) with (cluster s) in Hfwd.
    by rewrite (Hfwd HF).
Qed.

Lemma X13_printed_is_complete_witness :
  validateReleaseName Sample.K "foo" = None
  /\ exists vals ch om tm original target,
       MergeValues Sample.K tt = inr vals
       /\ loader_Load Sample.K "./foo" = inr ch
       /\ fst (prepareUpgrade Sample.K "foo" (Some ch) vals
                 (checked Sample.K (loaded Sample.K "./foo"
                                      (initial Sample.K Sample.failedUpgrade))))
          = (om, tm, None)
       /\ KubeClient_Build Sample.K Sample.failedUpgrade om false = inr original
       /\ KubeClient_Build Sample.K Sample.failedUpgrade tm false = inr target
       /\ "[replicas: 3]"
          = formatPatchset (map (patchFor Sample.K Sample.failedUpgrade original)
                                (List.filter (existsLive Sample.K Sample.failedUpgrade) target))
       /\ Forall (fun info => existsLive Sample.K Sample.failedUpgrade info = true ->
                    patchable Sample.K Sample.failedUpgrade original info = true
                    /\ snd (lookupLive Sample.K Sample.failedUpgrade info) = None) target.
Proof.
  apply (proj1 (X13_printed_is_complete Sample.K tt "foo" "./foo"
                  (initial Sample.K Sample.failedUpgrade)) "[replicas: 3]").
  vm_compute. reflexivity.
Defined.

(** X14: [createPatchset] talks to the release store only after the checks
    on the runtime: a failed initialisation ends the process after the
    initialisation call alone, and an unreachable runtime makes it return
    the empty string with the reachability error after that one check. *)
Theorem X14_unreachable_runtime (K : Collaborators) (name : string)
    (ch : option (Chart K)) (vals : Values K) (s : State K) :
  (forall e, Configuration_Init K = Some e ->
     fst (createPatchset K name ch vals s) = LogFatal e
     /\ added (createPatchset K name ch vals) s = [CallInit])
  /\ (forall e, Configuration_Init K = None ->
        KubeClient_IsReachable K (cluster s) = Some e ->
        fst (createPatchset K name ch vals s) = Returns ("", Some e)
        /\ added (createPatchset K name ch vals) s = [CallInit; CallIsReachable]).
Proof. apply createPatchset_unreachable. Qed.

Lemma X14_unreachable_runtime_witness :
  fst (createPatchset (Faulty.K Faulty.unreachable) "foo" (Some tt) tt
         (initial (Faulty.K Faulty.unreachable) Sample.steady))
  = Returns ("", Some (External "connection refused"))
  /\ added (createPatchset (Faulty.K Faulty.unreachable) "foo" (Some tt) tt)
           (initial (Faulty.K Faulty.unreachable) Sample.steady)
     = [CallInit; CallIsReachable].
Proof.
  apply (proj2 (X14_unreachable_runtime (Faulty.K Faulty.unreachable) "foo" (Some tt) tt
                  (initial (Faulty.K Faulty.unreachable) Sample.steady))
           (External "connection refused")); reflexivity.
Defined.

(** ** Order and number of the lookups *)

(** X15: every negotiation invalidates the discovery cache before it reads
    the server version: if [getCapabilities] asks for the server version at
    all, its calls start with the discovery client, the invalidation and the
    version request, in this order. *)
Theorem X15_invalidate_before_version (K : Collaborators) (s : State K) :
  In CallServerVersion (added (getCapabilities K) s) ->
  exists rest,
    added (getCapabilities K) s
    = CallToDiscoveryClient :: CallInvalidate :: CallServerVersion :: rest.
Proof.
  rewrite getCapabilities_added.
  destruct (c_Capabilities s); [by intros []|].
  destruct (ToDiscoveryClient K) as [e|dc].
  - simpl. intros [H|[]]. discriminate H.
  - intros _. by eexists.
Qed.

Lemma X15_invalidate_before_version_witness :
  exists rest,
    added (getCapabilities Sample.K) (initial Sample.K Sample.steady)
    = CallToDiscoveryClient :: CallInvalidate :: CallServerVersion :: rest.
Proof.
  apply (X15_invalidate_before_version Sample.K (initial Sample.K Sample.steady)).
  vm_compute. auto.
Defined.

(** X16: the store is asked for the deployed release only when the most
    recent release is not itself deployed, and then exactly once. *)
Theorem X16_deployed_lookup (K : Collaborators) (name : string) (lastRelease : Release)
    (s : State K) :
  (Info_Status lastRelease = StatusDeployed ->
     added (currentReleaseFor K name lastRelease) s = [])
  /\ (Info_Status lastRelease <> StatusDeployed ->
      added (currentReleaseFor K name lastRelease) s = [CallDeployed name]).
Proof.
  unfold currentReleaseFor. split.
  - intros ->. simpl. apply added_ret.
  - intros Hne. destruct (String.eqb_spec (Info_Status lastRelease) StatusDeployed); [done|].
    rewrite (added_bind quiet quiet); [|logs quiet_call|logs quiet_call].
    rewrite added_runtime.
    destruct (fst (runtime K (CallDeployed name) _ s)) as [err|cur];
      [destruct (_ && _)|]; by rewrite added_ret.
Qed.

Lemma X16_deployed_lookup_witness :
  added (currentReleaseFor Sample.K "foo" (Sample.release StatusFailed 5 "default"))
        (initial Sample.K Sample.failedUpgrade)
  = [CallDeployed "foo"].
Proof.
  apply (X16_deployed_lookup Sample.K "foo" (Sample.release StatusFailed 5 "default")
           (initial Sample.K Sample.failedUpgrade)).
  vm_compute. discriminate.
Defined.

Section LookupCount.
Context {K : Collaborators}.
Variable original : list (Info (Object K)).

Lemma visit_ok_reaches info patches (s : State K) :
  snd (fst (visitFn K original info None patches s)) = None ->
  reachesMerge K (cluster s) original info = existsLive K (cluster s) info.
Proof.
  rewrite visitFn_fst. unfold reachesMerge, marshals.
  destruct (existsLive K (cluster s) info); [|done]. simpl.
  destruct (ResourceList_Get K original info) as [o|]; [|discriminate].
  destruct (fst (createPatch K (InfoObject o) info (initial K (cluster s))))
    as [[patch kind] err] eqn:E.
  destruct err; [discriminate|]. intros _.
  apply createPatch_inv in E. destruct E as (old & new & cur & -> & -> & _). done.
Qed.

Lemma Visit_lookups target : forall patches (s s' : State K) patches',
  Visit K target (visitFn K original) patches s = ((patches', None), s') ->
  added (Visit K target (visitFn K original) patches) s
  = concat (map (fun info => if existsLive K (cluster s) info
                             then [getCall info; getCall info] else [getCall info]) target).
Proof.
  induction target as [|info rest IH]; intros patches s s' patches' H.
  - apply added_ret.
  - rewrite added_Visit_cons, visitFn_added. rewrite Visit_cons in H.
    pose proof (visit_ok_reaches info patches s) as Hr.
    pose proof (Logs_cluster quiet _ s (visitFn_quiet original info None patches)) as Hc.
    destruct (visitFn K original info None patches s) as [[p1 e1] s1]. simpl in *.
    destruct e1 as [e|]; [inversion H|].
    rewrite (Hr eq_refl). rewrite (IH _ _ _ _ H), Hc.
    by destruct (existsLive K (cluster s) info).
Qed.

End LookupCount.

(** X17: a traversal that ends without error has looked every target
    resource up once, and every live one a second time, in the order of the
    target manifest: the number of lookups is the number of target resources
    plus the number of patches. *)
Theorem X17_lookups_of_a_traversal (K : Collaborators)
    (original target : list (Info (Object K))) (patches : list string) (s s' : State K) :
  Visit K target (visitFn K original) [] s = ((patches, None), s') ->
  added (Visit K target (visitFn K original) []) s
  = concat (map (fun info => if existsLive K (cluster s) info
                             then [getCall info; getCall info] else [getCall info]) target)
  /\ length (added (Visit K target (visitFn K original) []) s)
     = (length target + length patches)%nat.
Proof.
  intros H. pose proof (Visit_lookups original target _ _ _ _ H) as Hl.
  split; [exact Hl|]. rewrite Hl.
  apply Visit_patches in H. destruct H as [-> _]. simpl. rewrite length_map.
  clear Hl. induction target as [|info rest IH]; [done|]. simpl.
  rewrite length_app, IH.
  destruct (existsLive K (cluster s) info); simpl; lia.
Qed.

Lemma X17_lookups_of_a_traversal_witness :
  added (Visit Sample.K (Sample.targetInfos Sample.failedUpgrade)
           (visitFn Sample.K (Sample.originalInfos Sample.failedUpgrade)) [])
        (initial Sample.K Sample.failedUpgrade)
  = concat (map (fun info => if existsLive Sample.K Sample.failedUpgrade info
                             then [getCall info; getCall info] else [getCall info])
                (Sample.targetInfos Sample.failedUpgrade))
  /\ length (added (Visit Sample.K (Sample.targetInfos Sample.failedUpgrade)
                      (visitFn Sample.K (Sample.originalInfos Sample.failedUpgrade)) [])
                   (initial Sample.K Sample.failedUpgrade))
     = (length (Sample.targetInfos Sample.failedUpgrade) + length ["replicas: 3"])%nat.
Proof.
  apply (X17_lookups_of_a_traversal Sample.K (Sample.originalInfos Sample.failedUpgrade)
           (Sample.targetInfos Sample.failedUpgrade) ["replicas: 3"]
           (initial Sample.K Sample.failedUpgrade)
           (snd (Visit Sample.K (Sample.targetInfos Sample.failedUpgrade)
                   (visitFn Sample.K (Sample.originalInfos Sample.failedUpgrade)) []
                   (initial Sample.K Sample.failedUpgrade)))).
  vm_compute. reflexivity.
Defined.
